(** * Fingerprint-for-Image: the fingerprint store of [image_input.py]

    A shallow embedding of the class [ImageImportProcessor]: the similarity
    score of two composite fingerprints, the search of the fingerprint
    database, the registration of an observation, and the loading and saving
    of the database file.

    Conventions of the embedding.
    - A Python call either returns a value or raises: [py A].  A method that
      also reads or mutates the processor object or the file system is a
      function from the state to an outcome and the state it leaves behind:
      [cmd A].  A raise keeps the mutations made before it, as in Python.
    - Python [int] is [Z].  Python [float] (binary64) is represented by the
      exact rational it denotes, [Q]; numbers are compared with [==].
    - [str] is [string]; [None] where a string is expected is [PyNone].
    - A [dict] whose iteration order is observable is an association list in
      insertion order.
    - Libraries the source calls (hashlib, json, PIL, imagehash, numpy, cv2,
      os.path, datetime) are not part of the repository: they are the fields
      of [externals], and every result below holds for all of them. *)

From Stdlib Require Import Ascii String QArith Lqa.
From Stdlib Require Import Sorted Permutation DecimalString.
From stdpp Require Import gmap strings list fin_maps.

Open Scope Z_scope.
Open Scope string_scope.

(** ** Python outcomes *)

Inductive exn : Type :=
  | AttributeError
  | ZeroDivisionError
  | FileNotFoundError
  | ValueError
  | TypeError
  | OSError
  | JSONDecodeError
  | WrappedException (cause : exn).

Inductive py (A : Type) : Type :=
  | Ret (a : A)
  | Raise (e : exn).
Arguments Ret {A} a.
Arguments Raise {A} e.

(** Sequencing: [x <- c ;; k] runs [c], and [k] only if [c] returned. *)
Class Sequencing (M : Type -> Type) : Type := {
  ret : forall {A : Type}, A -> M A;
  bind : forall {A B : Type}, M A -> (A -> M B) -> M B
}.

Notation "x <- c ;; k" := (bind c (fun x => k))
  (at level 100, c at next level, right associativity).

Definition py_bind {A B : Type} (m : py A) (f : A -> py B) : py B :=
  match m with
  | Ret a => f a
  | Raise e => Raise e
  end.

#[global] Instance py_sequencing : Sequencing py :=
  {| ret := @Ret; bind := @py_bind |}.

(** [try: body / except: handler]. *)
Definition try_except {A : Type} (body : py A) (handler : exn -> py A) : py A :=
  match body with
  | Ret a => Ret a
  | Raise e => handler e
  end.

(** The loop [for x in xs: acc.append(f(x))], aborted by the first raise. *)
Fixpoint for_append {A B : Type} (f : A -> py B) (xs : list A) : py (list B) :=
  match xs with
  | [] => Ret []
  | x :: xs' => y <- f x;; ys <- for_append f xs';; ret (y :: ys)
  end.

(** A value that is a string or [None]. *)
Inductive pyval : Type :=
  | PyNone
  | PyStr (s : string).

(** ** Built-ins used by the scorer *)

(** [s.split(sep)] for a one-character separator: never empty. *)
Fixpoint split (sep : ascii) (s : string) : list string :=
  match s with
  | EmptyString => [EmptyString]
  | String c rest =>
      if Ascii.eqb c sep then EmptyString :: split sep rest
      else match split sep rest with
           | [] => [String c EmptyString]
           | p :: ps => String c p :: ps
           end
  end.

(** [fp.split('_')]; [None] has no attribute [split]. *)
Definition py_split (fp : pyval) : py (list string) :=
  match fp with
  | PyNone => Raise AttributeError
  | PyStr s => Ret (split "_"%char s)
  end.

Definition chars (s : string) : list ascii := list_ascii_of_string s.

Definition len (s : string) : Z := Z.of_nat (String.length s).

(** [zip]: stops at the shorter argument. *)
Definition zip {A B : Type} (xs : list A) (ys : list B) : list (A * B) :=
  combine xs ys.

(** [sum] of booleans, counted as 0 and 1, from 0, left to right. *)
Definition sum_bool (bs : list bool) : Z :=
  fold_left (fun acc (b : bool) => acc + (if b then 1 else 0)) bs 0.

(** [sum] of numbers, from 0, left to right. *)
Definition sum_num (qs : list Q) : Q :=
  fold_left Qplus qs (inject_Z 0).

(** True division [a / b]. *)
Definition truediv (a b : Q) : py Q :=
  if Qeq_bool b (inject_Z 0) then Raise ZeroDivisionError else Ret (a / b)%Q.

(** ** SimilarityScorer: [calculate_fingerprint_similarity] *)

(** [c1 != c2]. *)
Definition differ (cc : ascii * ascii) : bool := negb (Ascii.eqb (fst cc) (snd cc)).

(** The body of the loop over the aligned components. *)
Definition component_similarity (pp : string * string) : py Q :=
  let '(p1, p2) := pp in
  let distance := sum_bool (map differ (zip (chars p1) (chars p2))) in
  let max_len := Z.max (len p1) (len p2) in
  ratio <- truediv (inject_Z distance) (inject_Z max_len);;
  ret ((inject_Z 1 - ratio) * inject_Z 100)%Q.

(** The [try] block. *)
Definition similarity_try (fp1 fp2 : pyval) : py Q :=
  parts1 <- py_split fp1;;
  parts2 <- py_split fp2;;
  similarities <- for_append component_similarity (zip parts1 parts2);;
  truediv (sum_num similarities) (inject_Z (Z.of_nat (length similarities))).

(** [except: return 0]. *)
Definition calculate_fingerprint_similarity (fp1 fp2 : pyval) : py Q :=
  try_except (similarity_try fp1 fp2) (fun _ => Ret (inject_Z 0)).

(** The shape of a fingerprint: the length of each component, in order. *)
Definition shape (f : string) : list nat :=
  map String.length (split "_"%char f).

Definition nonempty (p : string) : bool :=
  match p with EmptyString => false | String _ _ => true end.

(** A fingerprint as the generator makes them: no component is empty. *)
Definition valid_fingerprint (f : string) : bool :=
  forallb nonempty (split "_"%char f).

(** [t] appended to the last component. *)
Fixpoint app_last (parts : list string) (t : string) : list string :=
  match parts with
  | [] => []
  | [p] => [p ++ t]
  | p :: parts' => p :: app_last parts' t
  end.

(** The range of a score. *)
Definition in_range (q : Q) : Prop := (0 <= q <= 100)%Q.

(** ** A [dict] in insertion order *)

Section Dict.
Context {V : Type}.

Fixpoint dict_get (d : list (string * V)) (k : string) : option V :=
  match d with
  | [] => None
  | (k', v) :: d' => if String.eqb k' k then Some v else dict_get d' k
  end.

(** [k in d]. *)
Definition dict_contains (d : list (string * V)) (k : string) : bool :=
  match dict_get d k with Some _ => true | None => false end.

(** Mutation of the object stored under [k], where it stands. *)
Fixpoint dict_update (f : V -> V) (k : string) (d : list (string * V))
  : list (string * V) :=
  match d with
  | [] => []
  | (k', v) :: d' =>
      if String.eqb k' k then (k', f v) :: d' else (k', v) :: dict_update f k d'
  end.

(** [d[k] = v]: a new key goes last, an old key keeps its place. *)
Definition dict_setitem (k : string) (v : V) (d : list (string * V))
  : list (string * V) :=
  if dict_contains d k then dict_update (fun _ => v) k d else d ++ [(k, v)].

Definition dict_keys (d : list (string * V)) : list string := map fst d.
End Dict.

(** ** FingerprintStore data *)

(** An element of [locations]. *)
Record location : Type := {
  loc_path : string;
  loc_filename : string;
  loc_timestamp : string;
  loc_size : Z
}.

(** A value of [fingerprint_database]. *)
Record fp_record : Type := {
  fingerprint : string;
  original_filename : string;
  first_seen : string;
  locations : list location;
  count : Z
}.

Definition database : Type := list (string * fp_record).

(** The keys of [image_info] that the store and the callers read. *)
Record image_info : Type := {
  info_path : string;
  info_filename : string;
  info_fingerprint : pyval;
  info_load_time : option string;
  info_file_size : option Z
}.

(** An element of the list [find_similar_images] returns.  ['data'] is the
    very record object held by the database, not a copy: it is a reference,
    the key under which the database holds that object, and it is read
    through [deref] in the database as it is at the time of reading. *)
Record similar : Type := {
  id : string;
  similarity : Q;
  data : string
}.

Definition deref (db : database) (r : string) : option fp_record := dict_get db r.

(** [l.sort(key=..., reverse=True)]: descending and stable (elements with
    equal keys keep their order). *)
Section Sort.
Context {A : Type} (key : A -> Q).

Fixpoint insert_desc (x : A) (l : list A) : list A :=
  match l with
  | [] => [x]
  | y :: l' =>
      if Qle_bool (key y) (key x) then x :: y :: l'
      else y :: insert_desc x l'
  end.

Fixpoint sort_desc (l : list A) : list A :=
  match l with
  | [] => []
  | x :: l' => insert_desc x (sort_desc l')
  end.
End Sort.

(** ** SimilarityScorer over the store: [find_similar_images] *)

(** The loop over [self.fingerprint_database.items()]. *)
Fixpoint scan_database (db : database) (fp : pyval) (threshold : Q)
  : py (list similar) :=
  match db with
  | [] => Ret []
  | (fp_id, fp_data) :: rest =>
      s <- calculate_fingerprint_similarity fp (PyStr (fingerprint fp_data));;
      tail <- scan_database rest fp threshold;;
      ret (if Qle_bool threshold s
            then {| id := fp_id; similarity := s; data := fp_id |} :: tail
            else tail)
  end.

Definition find_similar_images (db : database) (fp : pyval) (threshold : Q)
  : py (list similar) :=
  similar_images <- scan_database db fp threshold;;
  ret (sort_desc similarity similar_images).

(** ** The processor object and its environment *)

Record processor : Type := {
  storage_file : string;
  loaded_images : list (string * image_info);
  fingerprint_database : database
}.

(** What the operating system does with the storage directory and file. *)
Inductive disk_condition : Type :=
  | DiskOk
  | MakedirsDenied
  | OpenDenied
  | DiskFullAfter (k : nat).

(** The environment: the files (path to text), the number of clock readings
    taken so far, and how the operating system answers. *)
Record world : Type := {
  files : gmap string string;
  ticks : nat;
  disk : disk_condition;
  rename_refused : bool
}.

Record state : Type := {
  self : processor;
  os : world
}.

Definition cmd (A : Type) : Type := state -> py A * state.

Definition cmd_ret {A : Type} (a : A) : cmd A := fun s => (Ret a, s).

Definition cmd_bind {A B : Type} (m : cmd A) (f : A -> cmd B) : cmd B :=
  fun s =>
    match m s with
    | (Ret a, s') => f a s'
    | (Raise e, s') => (Raise e, s')
    end.

#[global] Instance cmd_sequencing : Sequencing cmd :=
  {| ret := @cmd_ret; bind := @cmd_bind |}.

Definition raise {A : Type} (e : exn) : cmd A := fun s => (Raise e, s).

Definition lift {A : Type} (r : py A) : cmd A := fun s => (r, s).

(** [try: body / except Exception as e: handler e]; the handler starts from
    the state the body left. *)
Definition cmd_try {A : Type} (body : cmd A) (handler : exn -> cmd A) : cmd A :=
  fun s =>
    match body s with
    | (Ret a, s') => (Ret a, s')
    | (Raise e, s') => handler e s'
    end.

Definition get_self : cmd processor := fun s => (Ret (self s), s).

Definition get_os : cmd world := fun s => (Ret (os s), s).

Definition set_database (db : database) : cmd unit :=
  fun s =>
    (Ret tt,
     {| self := {| storage_file := storage_file (self s);
                   loaded_images := loaded_images (self s);
                   fingerprint_database := db |};
        os := os s |}).

Definition set_loaded_images (li : list (string * image_info)) : cmd unit :=
  fun s =>
    (Ret tt,
     {| self := {| storage_file := storage_file (self s);
                   loaded_images := li;
                   fingerprint_database := fingerprint_database (self s) |};
        os := os s |}).

Definition set_files (fs : gmap string string) : cmd unit :=
  fun s =>
    (Ret tt,
     {| self := self s;
        os := {| files := fs; ticks := ticks (os s); disk := disk (os s);
                 rename_refused := rename_refused (os s) |} |}).

Definition tick : cmd nat :=
  fun s =>
    (Ret (ticks (os s)),
     {| self := self s;
        os := {| files := files (os s); ticks := S (ticks (os s));
                 disk := disk (os s);
                 rename_refused := rename_refused (os s) |} |}).

(** *** The file system calls of the source *)

Definition os_path_exists (path : string) : cmd bool :=
  w <- get_os;;
  ret (match files w !! path with Some _ => true | None => false end).

Definition os_path_getsize (path : string) : cmd Z :=
  w <- get_os;;
  match files w !! path with
  | Some text => ret (len text)
  | None => raise FileNotFoundError
  end.

(** [os.makedirs(os.path.dirname(path), exist_ok=True)]. *)
Definition os_makedirs_parent (path : string) : cmd unit :=
  w <- get_os;;
  match disk w with
  | MakedirsDenied => raise OSError
  | _ => ret tt
  end.

(** [open(path, 'w')]: the file is emptied as soon as it is opened. *)
Definition open_w (path : string) : cmd unit :=
  w <- get_os;;
  match disk w with
  | OpenDenied => raise OSError
  | _ => set_files (<[path := EmptyString]> (files w))
  end.

(** Writing [text] to the file opened on [path]: when the disk fills up
    after [k] characters, the file keeps those and the call raises. *)
Definition write_text (path text : string) : cmd unit :=
  w <- get_os;;
  match disk w with
  | DiskFullAfter k =>
      if (k <? String.length text)%nat
      then (_ <- set_files (<[path := substring 0 k text]> (files w));;
            raise OSError)
      else set_files (<[path := text]> (files w))
  | _ => set_files (<[path := text]> (files w))
  end.

(** [open(path, 'r')] and reading the whole text. *)
Definition read_text (path : string) : cmd string :=
  w <- get_os;;
  match files w !! path with
  | None => raise FileNotFoundError
  | Some text =>
      match disk w with
      | OpenDenied => raise OSError
      | _ => ret text
      end
  end.

(** [os.rename(src, dst)]. *)
Definition os_rename (src dst : string) : cmd unit :=
  w <- get_os;;
  if rename_refused w then raise OSError
  else match files w !! src with
       | None => raise FileNotFoundError
       | Some text => set_files (<[dst := text]> (delete src (files w)))
       end.

(** ** Libraries outside the repository *)

Record externals : Type := {
  (** [hashlib.md5(s.encode()).hexdigest()] *)
  md5_hexdigest : string -> string;
  (** the text [json.dump(db, f, indent=2, ensure_ascii=False)] writes *)
  json_dumps : database -> string;
  (** [json.load]: [None] when it raises *)
  json_loads : string -> option database;
  (** [datetime.now().isoformat()] at the k-th reading of the clock *)
  isoformat_now : nat -> string;
  (** a numpy array and a PIL image *)
  ndarray : Type;
  pil_image : Type;
  (** [image_array.dtype == np.uint8] *)
  is_uint8 : ndarray -> bool;
  (** [(image_array * 255).astype(np.uint8)] *)
  scale_uint8 : ndarray -> py ndarray;
  (** [Image.fromarray] *)
  fromarray : ndarray -> py pil_image;
  (** [str(imagehash.average_hash(img))] and its two siblings *)
  average_hash : pil_image -> py string;
  phash : pil_image -> py string;
  dhash : pil_image -> py string;
  (** [Image.open], [np.array] and the conversion to RGB, on a file's content *)
  decode_rgb : string -> py ndarray;
  (** [base64.b64encode(hashlib.sha256(a.tobytes()).digest()).decode('utf-8')] *)
  sha256_b64 : ndarray -> string;
  (** [os.path.basename], and [os.path.splitext(p)[1].lower()] *)
  basename : string -> string;
  ext_lower : string -> string
}.

Section Processor.
Variable E : externals.

(** [datetime.now().isoformat()]. *)
Definition now_isoformat : cmd string :=
  k <- tick;; ret (isoformat_now E k).

Definition supported_formats : list string :=
  [".jpg"; ".jpeg"; ".png"; ".bmp"; ".tiff"; ".webp"].

Definition check_image_format (file_path : string) : bool :=
  existsb (String.eqb (ext_lower E file_path)) supported_formats.

(** *** FingerprintGenerator *)

Definition generate_image_hash (image_array : ndarray E) : string :=
  substring 0 32 (sha256_b64 E image_array).

(** The [try] block of [generate_perceptual_hash]. *)
Definition perceptual_hash_try (image_array : ndarray E) : py pyval :=
  image_array <- (if is_uint8 E image_array then Ret image_array
                 else scale_uint8 E image_array);;
  pil <- fromarray E image_array;;
  ahash <- average_hash E pil;;
  phash <- phash E pil;;
  dhash <- dhash E pil;;
  ret (PyStr (ahash ++ "_" ++ phash ++ "_" ++ dhash)).

(** [except Exception as e: print(...); return None]. *)
Definition generate_perceptual_hash (image_array : ndarray E) : py pyval :=
  try_except (perceptual_hash_try image_array) (fun _ => Ret PyNone).

(** *** FingerprintStore *)

Definition save_fingerprint_database : cmd bool :=
  cmd_try
    (me <- get_self;;
     _ <- os_makedirs_parent (storage_file me);;
     _ <- open_w (storage_file me);;
     _ <- write_text (storage_file me) (json_dumps E (fingerprint_database me));;
     ret true)
    (fun _ => ret false).

(** [fingerprint.encode()]. *)
Definition encode (fp : pyval) : py string :=
  match fp with
  | PyNone => Raise AttributeError
  | PyStr s => Ret s
  end.

(** [fingerprint[:n]]. *)
Definition slice_to (n : nat) (fp : pyval) : py string :=
  match fp with
  | PyNone => Raise TypeError
  | PyStr s => Ret (substring 0 n s)
  end.

(** The entry the method appends to ['locations']. *)
Definition location_of (info : image_info) (timestamp : string) : location :=
  {| loc_path := info_path info;
     loc_filename := info_filename info;
     loc_timestamp := timestamp;
     loc_size := match info_file_size info with Some n => n | None => 0 end |}.

Definition append_location (l : location) (r : fp_record) : fp_record :=
  {| fingerprint := fingerprint r;
     original_filename := original_filename r;
     first_seen := first_seen r;
     locations := locations r ++ [l];
     count := count r |}.

Definition increment_count (r : fp_record) : fp_record :=
  {| fingerprint := fingerprint r;
     original_filename := original_filename r;
     first_seen := first_seen r;
     locations := locations r;
     count := count r + 1 |}.

(** [hashlib.md5(fingerprint.encode()).hexdigest()[:16]]. *)
Definition record_id (fp_text : string) : string :=
  substring 0 16 (md5_hexdigest E fp_text).

(** The method has no [return]: its value is [None]. *)
Definition add_to_fingerprint_database (fp : pyval) (info : image_info)
  : cmd pyval :=
  fp_text <- lift (encode fp);;
  let fp_id := record_id fp_text in
  me <- get_self;;
  _ <- (if negb (dict_contains (fingerprint_database me) fp_id)
       then (t <- now_isoformat;;
             set_database
               (dict_setitem fp_id
                  {| fingerprint := fp_text;
                     original_filename := info_filename info;
                     first_seen := t;
                     locations := [];
                     count := 0 |}
                  (fingerprint_database me)))
       else ret tt);;
  t <- now_isoformat;;
  me <- get_self;;
  _ <- set_database
        (dict_update (append_location (location_of info t)) fp_id
           (fingerprint_database me));;
  me <- get_self;;
  _ <- set_database
        (dict_update increment_count fp_id (fingerprint_database me));;
  _ <- save_fingerprint_database;;
  ret PyNone.

Definition backup_suffix : string := ".backup".

Definition load_fingerprint_database : cmd unit :=
  me <- get_self;;
  present <- os_path_exists (storage_file me);;
  if present
  then
    cmd_try
      (text <- read_text (storage_file me);;
       match json_loads E text with
       | None => raise JSONDecodeError
       | Some db =>
           _ <- set_database db;;
           _ <- os_path_getsize (storage_file me);;
           ret tt
       end)
      (fun _ =>
         _ <- cmd_try
               (os_rename (storage_file me) (storage_file me ++ backup_suffix))
               (fun _ => ret tt);;
         set_database [])
  else set_database [].

(** *** DuplicateFinder: [load_image_from_path] *)

(** The local variables of [load_image_from_path] when it returns. *)
Record ingest_locals : Type := {
  similar_images : list similar;
  image_hash : string;
  image_info_of : image_info
}.

(** The [try] block. *)
Definition load_image_try (file_path : string) : cmd ingest_locals :=
  w <- get_os;;
  content <- match files w !! file_path with
            | Some c => ret c
            | None => raise FileNotFoundError
            end;;
  image_array <- lift (decode_rgb E content);;
  fp <- lift (generate_perceptual_hash image_array);;
  me <- get_self;;
  similar_images <- lift (find_similar_images (fingerprint_database me) fp
                           (inject_Z 90));;
  load_time <- now_isoformat;;
  file_size <- os_path_getsize file_path;;
  let image_info :=
    {| info_path := file_path;
       info_filename := basename E file_path;
       info_fingerprint := fp;
       info_load_time := Some load_time;
       info_file_size := Some file_size |} in
  let image_hash := generate_image_hash image_array in
  me <- get_self;;
  _ <- set_loaded_images (dict_setitem image_hash image_info (loaded_images me));;
  _ <- add_to_fingerprint_database fp image_info;;
  _ <- lift (slice_to 32 fp);;
  ret {| similar_images := similar_images;
          image_hash := image_hash;
          image_info_of := image_info |}.

Definition load_image_locals (file_path : string) : cmd ingest_locals :=
  present <- os_path_exists file_path;;
  if negb present then raise FileNotFoundError
  else if negb (check_image_format file_path) then raise ValueError
  else cmd_try (load_image_try file_path)
               (fun e => raise (WrappedException e)).

(** The method returns [image_hash, image_info]; the matches are shown on
    the console. *)
Definition load_image_from_path (file_path : string)
  : cmd (string * image_info) :=
  r <- load_image_locals file_path;;
  ret (image_hash r, image_info_of r).

End Processor.

(** ** Vocabulary of the statements *)

(** The score of a query against a stored record, as a number. *)
Definition score (fp : pyval) (r : fp_record) : Q :=
  match calculate_fingerprint_similarity fp (PyStr (fingerprint r)) with
  | Ret q => q
  | Raise _ => inject_Z 0
  end.

Definition match_of (fp : pyval) (kv : string * fp_record) : similar :=
  {| id := fst kv; similarity := score fp (snd kv); data := fst kv |}.

(** The records that reach the threshold, in the order the store holds them. *)
Definition matches_in_store_order (db : database) (fp : pyval) (threshold : Q)
  : list similar :=
  map (match_of fp)
      (List.filter (fun kv => Qle_bool threshold (score fp (snd kv))) db).

Definition same_similarity (q : Q) (m : similar) : bool :=
  Qeq_bool (similarity m) q.

Definition descending (a b : similar) : Prop := (similarity b <= similarity a)%Q.

(** The order the specification asks of [find_similar]: descending by
    similarity, ties broken by the earliest first-seen timestamp, then by
    record ID.  [spec_before db a b] says that [a] may stand before [b]. *)
Definition first_seen_of (db : database) (m : similar) : string :=
  match deref db (data m) with
  | Some r => first_seen r
  | None => EmptyString
  end.

Definition spec_before (db : database) (a b : similar) : bool :=
  if Qeq_bool (similarity a) (similarity b)
  then if String.eqb (first_seen_of db a) (first_seen_of db b)
       then String.leb (id a) (id b)
       else String.ltb (first_seen_of db a) (first_seen_of db b)
  else Qle_bool (similarity b) (similarity a).

Fixpoint spec_ordered (db : database) (l : list similar) : bool :=
  match l with
  | a :: ((b :: _) as l') => spec_before db a b && spec_ordered db l'
  | _ => true
  end.

(** The states the processor reaches from an empty database by calls of
    [add_to_fingerprint_database], the environment changing freely between
    the calls. *)
Inductive reachable (E : externals) : state -> Prop :=
  | reach_empty (sf : string) (li : list (string * image_info)) (w : world) :
      reachable E {| self := {| storage_file := sf; loaded_images := li;
                                fingerprint_database := [] |};
                     os := w |}
  | reach_env (s : state) (w : world) :
      reachable E s -> reachable E {| self := self s; os := w |}
  | reach_add (s : state) (fp : pyval) (info : image_info) :
      reachable E s ->
      reachable E (snd (add_to_fingerprint_database E fp info s)).

Definition count_matches_locations (r : fp_record) : Prop :=
  count r = Z.of_nat (length (locations r)).

(** The database after one observation of the fingerprint text [f] has been
    registered, the clock standing at its [k]-th reading: the three
    assignments of [add_to_fingerprint_database], composed. *)
Definition registered (E : externals) (f : string) (info : image_info) (k : nat)
    (db : database) : database :=
  let rid := record_id E f in
  if dict_contains db rid
  then dict_update increment_count rid
         (dict_update (append_location (location_of info (isoformat_now E k))) rid db)
  else dict_update increment_count rid
         (dict_update (append_location (location_of info (isoformat_now E (S k)))) rid
            (dict_setitem rid
               {| fingerprint := f;
                  original_filename := info_filename info;
                  first_seen := isoformat_now E k;
                  locations := [];
                  count := 0 |} db)).

(** The state in which [add_to_fingerprint_database] calls
    [save_fingerprint_database]. *)
Definition before_save (E : externals) (f : string) (info : image_info) (s : state)
  : state :=
  let db := fingerprint_database (self s) in
  let k := ticks (os s) in
  {| self := {| storage_file := storage_file (self s);
                loaded_images := loaded_images (self s);
                fingerprint_database := registered E f info k db |};
     os := {| files := files (os s);
              ticks := if dict_contains db (record_id E f) then S k else S (S k);
              disk := disk (os s);
              rename_refused := rename_refused (os s) |} |}.

(** A store in which the record inserted first was first seen later than
    the record inserted second (local time stepped back one hour between
    the two), and a query that both records match equally well.  The keys
    are the first 16 hexadecimal digits of the MD5 of the fingerprints. *)
Definition tied_store : database :=
  [ ("e9d4c5e3bbd2d214",
     {| fingerprint := "ffff_0001_abcd";
        original_filename := "first.png";
        first_seen := "2024-10-27T02:40:00.000000";
        locations := [ {| loc_path := "/img/first.png"; loc_filename := "first.png";
                          loc_timestamp := "2024-10-27T02:40:00.000100";
                          loc_size := 1024 |} ];
        count := 1 |});
    ("5e4f093ea3cc2661",
     {| fingerprint := "ffff_0000_abcf";
        original_filename := "second.png";
        first_seen := "2024-10-27T02:10:00.000000";
        locations := [ {| loc_path := "/img/second.png"; loc_filename := "second.png";
                          loc_timestamp := "2024-10-27T02:10:00.000100";
                          loc_size := 2048 |} ];
        count := 1 |}) ].

Definition tied_query : pyval := PyStr "ffff_0000_abcd".

(** ** Stand-ins for the libraries

    Used only to run the model on concrete inputs; the theorems hold for
    every [externals]. *)

Definition bits (f : Z -> bool) (px : list Z) : string :=
  string_of_list_ascii
    (map (fun p => if f p then "1"%char else "0"%char) (firstn 4 (px ++ [0; 0; 0; 0])%list)).

Definition sample_externals : externals := {|
  md5_hexdigest := fun s => s;
  json_dumps := fun db => "{" ++ String.concat "," (dict_keys db) ++ "}";
  json_loads := fun text => if String.eqb text "{}" then Some [] else None;
  isoformat_now := fun k => "2024-01-01T00:00:0" ++ String (ascii_of_nat (48 + k)) "";
  ndarray := list Z;
  pil_image := list Z;
  is_uint8 := forallb (fun p => (0 <=? p)%Z && (p <? 256)%Z);
  scale_uint8 := fun a => Ret (map (fun p => (p * 255) mod 256) a);
  fromarray := fun a => match a with [] => Raise TypeError | _ => Ret a end;
  average_hash := fun img => Ret (bits (fun p => (128 <=? p)%Z) img);
  phash := fun img => Ret (bits Z.odd img);
  dhash := fun img => Ret (bits (fun p => (p mod 3 =? 0)%Z) img);
  decode_rgb := fun content =>
    match content with
    | EmptyString => Raise OSError
    | _ => Ret (map (fun c => Z.of_nat (nat_of_ascii c)) (chars content))
    end;
  sha256_b64 := fun a => string_of_list_ascii (map (fun p => ascii_of_nat (Z.to_nat p)) a);
  basename := fun p => List.last (split "/"%char p) EmptyString;
  ext_lower := fun p => substring (String.length p - 4) 4 p
|}.

Definition sample_world : world := {|
  files := <["/img/a.png" := "aXc!"]> (<["/img/b.png" := "zzzz"]> ∅);
  ticks := 0;
  disk := DiskOk;
  rename_refused := false
|}.

Definition sample_state : state := {|
  self := {| storage_file := "/db/image_fingerprints.json";
             loaded_images := [];
             fingerprint_database := [] |};
  os := sample_world
|}.

(** ** The remaining methods of the processor *)

(** [sep.join(parts)], the inverse of [split]. *)
Fixpoint join (sep : ascii) (parts : list string) : string :=
  match parts with
  | [] => EmptyString
  | [p] => p
  | p :: rest => p ++ String sep (join sep rest)
  end.

(** [get_image_info]: [None] stands for [raise KeyError]. *)
Definition get_image_info (me : processor) (image_hash : string)
  : option image_info :=
  if dict_contains (loaded_images me) image_hash
  then dict_get (loaded_images me) image_hash
  else None.

(** The calls of [os.path] that only [__init__] makes. *)
Record path_externals : Type := {
  (** [os.path.isabs] *)
  isabs : string -> bool;
  (** [os.path.dirname(os.path.abspath(__file__))] *)
  script_dir : string;
  (** [os.path.join] *)
  path_join : string -> string -> string
}.

(** The storage path [__init__] settles on: a relative name is joined to
    the directory of the script. *)
Definition resolve_storage_file (P : path_externals) (storage_file : string)
  : string :=
  if negb (isabs P storage_file)
  then path_join P (script_dir P) storage_file
  else storage_file.

(** [__init__]. *)
Definition init (E : externals) (P : path_externals) (storage_file : string)
    (w : world) : py unit * state :=
  load_fingerprint_database E
    {| self := {| storage_file := resolve_storage_file P storage_file;
                  loaded_images := [];
                  fingerprint_database := [] |};
       os := w |}.

(** A library call that acts on the environment and not on the processor
    object. *)
Definition lift_world {A : Type} (f : world -> py A * world) : cmd A :=
  fun s => let (r, w) := f (os s) in (r, {| self := self s; os := w |}).

(** [str(x)] inside an f-string. *)
Definition str_of (fp : pyval) : string :=
  match fp with
  | PyNone => "None"
  | PyStr s => s
  end.

(** The calls of PIL and [os.path] that only [save_image] makes. *)
Record save_externals (E : externals) : Type := {
  (** [os.path.splitext(p)[1]] *)
  splitext_ext : string -> string;
  (** [s.upper()] *)
  upper : string -> string;
  (** [metadata.add_text("Fingerprint", fingerprint)] on a fresh [PngInfo] *)
  png_add_fingerprint : pyval -> py unit;
  (** [pil_image.save(path, format='PNG', pnginfo=metadata)], the metadata
      holding the fingerprint and the save time *)
  save_png : pil_image E -> string -> pyval -> string -> world -> py unit * world;
  (** [pil_image.save(path, format='JPEG', quality=q, exif=exif)], the EXIF
      user comment being the given text *)
  save_jpeg : pil_image E -> string -> string -> Z -> world -> py unit * world;
  (** [pil_image.save(path, format=format, quality=q)] *)
  save_other : pil_image E -> string -> string -> Z -> world -> py unit * world
}.
Arguments splitext_ext {E} _ _.
Arguments upper {E} _ _.
Arguments png_add_fingerprint {E} _ _.
Arguments save_png {E} _ _ _ _ _ _.
Arguments save_jpeg {E} _ _ _ _ _ _.
Arguments save_other {E} _ _ _ _ _ _.

Section SaveImage.
Variable E : externals.
Variable X : save_externals E.

(** [ext[1:].upper() if ext else 'JPEG']. *)
Definition detect_format (output_path : string) : string :=
  match splitext_ext X output_path with
  | EmptyString => "JPEG"
  | String _ rest => upper X rest
  end.

(** The [try] block of [save_image]. *)
Definition save_image_try (image_array : ndarray E) (output_path : string)
    (format : option string) (quality : Z) (embed_fingerprint : bool) : cmd bool :=
  image_array <- lift (if is_uint8 E image_array then Ret image_array
                       else scale_uint8 E image_array);;
  pil <- lift (fromarray E image_array);;
  let format := match format with
                | None => detect_format output_path
                | Some f => f
                end in
  fp <- lift (generate_perceptual_hash E image_array);;
  _ <- (if String.eqb (upper X format) "PNG" && embed_fingerprint
        then (_ <- lift (png_add_fingerprint X fp);;
              t <- now_isoformat E;;
              lift_world (save_png X pil output_path fp t))
        else if existsb (String.eqb (upper X format)) ["JPEG"; "JPG"]
        then lift_world (save_jpeg X pil output_path ("Fingerprint:" ++ str_of fp)
                           quality)
        else lift_world (save_other X pil output_path format quality));;
  file_size <- os_path_getsize output_path;;
  let save_info :=
    {| info_path := output_path;
       info_filename := basename E output_path;
       info_fingerprint := fp;
       info_load_time := None;
       info_file_size := Some file_size |} in
  _ <- add_to_fingerprint_database E fp save_info;;
  _ <- lift (slice_to 32 fp);;
  _ <- os_path_getsize output_path;;
  ret true.

(** [except Exception as e: print(...); return False]. *)
Definition save_image (image_array : ndarray E) (output_path : string)
    (format : option string) (quality : Z) (embed_fingerprint : bool) : cmd bool :=
  cmd_try (save_image_try image_array output_path format quality embed_fingerprint)
          (fun _ => ret false).

(** Menu entry 8 of [usage_example]: the database is replaced by an empty
    one and saved. *)
Definition clear_database : cmd bool :=
  _ <- set_database [];;
  save_fingerprint_database E.

End SaveImage.

(** ** Vocabulary of the further statements *)

(** A store as the methods build it: the keys are distinct, every key is
    the ID of the fingerprint of its record, and every record counts its
    locations, of which it has at least one. *)
Definition record_well_formed (E : externals) (kv : string * fp_record) : Prop :=
  fst kv = record_id E (fingerprint (snd kv))
  /\ count (snd kv) = Z.of_nat (length (locations (snd kv)))
  /\ 1 <= count (snd kv).

Definition store_well_formed (E : externals) (db : database) : Prop :=
  List.NoDup (dict_keys db) /\ Forall (record_well_formed E) db.

(** The states of a session: from an empty database, any sequence of calls
    of the methods that change the store, the environment changing freely
    between them. *)
Inductive session (E : externals) (X : save_externals E) : state -> Prop :=
  | session_start (sf : string) (li : list (string * image_info)) (w : world) :
      session E X {| self := {| storage_file := sf; loaded_images := li;
                                fingerprint_database := [] |};
                     os := w |}
  | session_env (s : state) (w : world) :
      session E X s -> session E X {| self := self s; os := w |}
  | session_ingest (s : state) (file_path : string) :
      session E X s -> session E X (snd (load_image_from_path E file_path s))
  | session_save_image (s : state) (a : ndarray E) (out : string)
      (format : option string) (q : Z) (embed : bool) :
      session E X s -> session E X (snd (save_image E X a out format q embed s))
  | session_add (s : state) (fp : pyval) (info : image_info) :
      session E X s -> session E X (snd (add_to_fingerprint_database E fp info s))
  | session_persist (s : state) :
      session E X s -> session E X (snd (save_fingerprint_database E s))
  | session_clear (s : state) :
      session E X s -> session E X (snd (clear_database E s)).

(** The [save_info] that [save_image] builds for a saved file with the given
    content, the fingerprint being the text [f]. *)
Definition save_info_of (E : externals) (output_path content f : string)
  : image_info :=
  {| info_path := output_path;
     info_filename := basename E output_path;
     info_fingerprint := PyStr f;
     info_load_time := None;
     info_file_size := Some (len content) |}.

(** The [image_info] that [load_image_from_path] builds for a file with the
    given content, the fingerprint being [fp] and the clock standing at its
    [k]-th reading. *)
Definition ingest_info (E : externals) (file_path content : string) (fp : pyval)
    (k : nat) : image_info :=
  {| info_path := file_path;
     info_filename := basename E file_path;
     info_fingerprint := fp;
     info_load_time := Some (isoformat_now E k);
     info_file_size := Some (len content) |}.

(** The state in which [load_image_from_path] calls
    [add_to_fingerprint_database]: the image is in [loaded_images] and the
    clock has been read once. *)
Definition ingest_registered (image_hash : string) (info : image_info) (s : state)
  : state :=
  {| self := {| storage_file := storage_file (self s);
                loaded_images := dict_setitem image_hash info (loaded_images (self s));
                fingerprint_database := fingerprint_database (self s) |};
     os := {| files := files (os s);
              ticks := S (ticks (os s));
              disk := disk (os s);
              rename_refused := rename_refused (os s) |} |}.

(** Stand-ins for the calls of [save_image]: a saved file holds the pixel
    values and, where the format carries it, the comment. *)
Definition sample_write (path text : string) (w : world) : py unit * world :=
  (Ret tt,
   {| files := <[path := text]> (files w); ticks := ticks w; disk := disk w;
      rename_refused := rename_refused w |}).

Definition sample_upper (s : string) : string :=
  string_of_list_ascii
    (map (fun c => let n := nat_of_ascii c in
                   if ((97 <=? n) && (n <=? 122))%nat then ascii_of_nat (n - 32)
                   else c)
         (chars s)).

Definition sample_save_externals : save_externals sample_externals :=
  Build_save_externals sample_externals
    (fun p => substring (String.length p - 4) 4 p)
    sample_upper
    (fun fp => match fp with PyNone => Raise AttributeError | PyStr _ => Ret tt end)
    (fun (img : list Z) path fp t =>
       sample_write path (sha256_b64 sample_externals img ++ str_of fp))
    (fun (img : list Z) path comment q =>
       sample_write path (sha256_b64 sample_externals img ++ comment))
    (fun (img : list Z) path format q =>
       sample_write path (sha256_b64 sample_externals img)).

(** Stand-ins in which the perceptual hash fails on every image. *)
Definition failing_hash_externals : externals := {|
  md5_hexdigest := md5_hexdigest sample_externals;
  json_dumps := json_dumps sample_externals;
  json_loads := json_loads sample_externals;
  isoformat_now := isoformat_now sample_externals;
  ndarray := list Z;
  pil_image := list Z;
  is_uint8 := is_uint8 sample_externals;
  scale_uint8 := scale_uint8 sample_externals;
  fromarray := fromarray sample_externals;
  average_hash := average_hash sample_externals;
  phash := fun _ => Raise ValueError;
  dhash := dhash sample_externals;
  decode_rgb := decode_rgb sample_externals;
  sha256_b64 := sha256_b64 sample_externals;
  basename := basename sample_externals;
  ext_lower := ext_lower sample_externals
|}.

(** Stand-ins for the JSON library that are a serializer and a parser of
    one text format: records are separated by [;], their fields by [|],
    locations by [&] and the fields of a location by [,]. *)
Definition show_Z (z : Z) : string := NilZero.string_of_int (Z.to_int z).

Definition read_Z (s : string) : option Z :=
  option_map Z.of_int (NilZero.int_of_string s).

Fixpoint all_some {A : Type} (xs : list (option A)) : option (list A) :=
  match xs with
  | [] => Some []
  | Some x :: xs' => option_map (cons x) (all_some xs')
  | None :: _ => None
  end.

Definition read_list {A : Type} (sep : ascii) (read : string -> option A)
    (s : string) : option (list A) :=
  match s with
  | EmptyString => Some []
  | _ => all_some (map read (split sep s))
  end.

Definition show_location (l : location) : string :=
  join ","%char [loc_path l; loc_filename l; loc_timestamp l; show_Z (loc_size l)].

Definition read_location (s : string) : option location :=
  match split ","%char s with
  | [p; f; t; n] =>
      option_map (fun size => {| loc_path := p; loc_filename := f;
                                 loc_timestamp := t; loc_size := size |})
                 (read_Z n)
  | _ => None
  end.

Definition show_record (kv : string * fp_record) : string :=
  join "|"%char
    [fst kv; fingerprint (snd kv); original_filename (snd kv); first_seen (snd kv);
     show_Z (count (snd kv));
     join "&"%char (map show_location (locations (snd kv)))].

Definition read_record (s : string) : option (string * fp_record) :=
  match split "|"%char s with
  | [k; fp; name; seen; n; locs] =>
      match read_Z n, read_list "&"%char read_location locs with
      | Some c, Some ls =>
          Some (k, {| fingerprint := fp; original_filename := name;
                      first_seen := seen; locations := ls; count := c |})
      | _, _ => None
      end
  | _ => None
  end.

Definition text_dumps (db : database) : string :=
  join ";"%char (map show_record db).

Definition text_loads (s : string) : option database :=
  read_list ";"%char read_record s.

Definition text_externals : externals := {|
  md5_hexdigest := md5_hexdigest sample_externals;
  json_dumps := text_dumps;
  json_loads := text_loads;
  isoformat_now := isoformat_now sample_externals;
  ndarray := list Z;
  pil_image := list Z;
  is_uint8 := is_uint8 sample_externals;
  scale_uint8 := scale_uint8 sample_externals;
  fromarray := fromarray sample_externals;
  average_hash := average_hash sample_externals;
  phash := phash sample_externals;
  dhash := dhash sample_externals;
  decode_rgb := decode_rgb sample_externals;
  sha256_b64 := sha256_b64 sample_externals;
  basename := basename sample_externals;
  ext_lower := ext_lower sample_externals
|}.

(** Stand-ins for [os.path] in [__init__]: the script lives in [/app]. *)
Definition sample_path_externals : path_externals := {|
  isabs := fun p => match p with String "/" _ => true | _ => false end;
  script_dir := "/app";
  path_join := fun a b => a ++ "/" ++ b
|}.

(** A processor on the relative storage name [image_fingerprints.json],
    holding a store of two records. *)
Definition tied_state : state := {|
  self := {| storage_file := "/app/image_fingerprints.json";
             loaded_images := [];
             fingerprint_database := tied_store |};
  os := {| files := ∅; ticks := 0; disk := DiskOk; rename_refused := false |}
|}.

(** * Properties of the scorer *)

Ltac py_simpl :=
  cbn [bind ret py_sequencing py_bind try_except py_split].

Section ScorerFacts.

Lemma sum_bool_acc (bs : list bool) (a : Z) :
fold_left (fun acc (b : bool) => acc + (if b then 1 else 0)) bs a
= a + sum_bool bs.
Proof.
unfold sum_bool. revert a.
induction bs as [|b bs IH]; intros a; cbn [fold_left].
- lia.
- rewrite (IH (a + _)), (IH (0 + _)). lia.
Qed.

Lemma sum_bool_cons (b : bool) (bs : list bool) :
sum_bool (b :: bs) = (if b then 1 else 0) + sum_bool bs.
Proof. unfold sum_bool at 1. simpl. apply sum_bool_acc. Qed.

Lemma sum_bool_bounds (bs : list bool) :
0 <= sum_bool bs <= Z.of_nat (length bs).
Proof.
induction bs as [|b bs IH].
- unfold sum_bool. simpl. lia.
- rewrite sum_bool_cons. simpl length. destruct b; lia.
Qed.

Lemma differ_zip_comm (xs ys : list ascii) :
map differ (zip xs ys) = map differ (zip ys xs).
Proof.
revert ys. induction xs as [|x xs IH]; intros [|y ys]; simpl; try reflexivity.
unfold differ at 1 3. simpl. rewrite (Ascii.eqb_sym x y). f_equal. apply IH.
Qed.

Lemma differ_zip_diag (xs : list ascii) :
sum_bool (map differ (zip xs xs)) = 0.
Proof.
induction xs as [|x xs IH]; [reflexivity|].
simpl. rewrite sum_bool_cons, IH. unfold differ. simpl.
rewrite Ascii.eqb_refl. reflexivity.
Qed.

Lemma zip_length_le_l {A B : Type} (xs : list A) (ys : list B) :
(length (zip xs ys) <= length xs)%nat.
Proof. unfold zip. rewrite length_combine. lia. Qed.

Lemma zip_length_le_r {A B : Type} (xs : list A) (ys : list B) :
(length (zip xs ys) <= length ys)%nat.
Proof. unfold zip. rewrite length_combine. lia. Qed.

Lemma chars_length (s : string) : length (chars s) = String.length s.
Proof. induction s; simpl; congruence. Qed.

Lemma component_similarity_comm (p1 p2 : string) :
component_similarity (p1, p2) = component_similarity (p2, p1).
Proof.
unfold component_similarity.
rewrite (differ_zip_comm (chars p1) (chars p2)), (Z.max_comm (len p1) (len p2)).
reflexivity.
Qed.

Lemma for_append_zip_comm (ps qs : list string) :
for_append component_similarity (zip ps qs)
= for_append component_similarity (zip qs ps).
Proof.
unfold zip. revert qs.
induction ps as [|p ps IH]; intros [|q qs]; cbn [combine for_append];
  try reflexivity.
rewrite component_similarity_comm, IH. reflexivity.
Qed.


Lemma sum_num_acc (qs : list Q) (a : Q) :
(fold_left Qplus qs a == a + sum_num qs)%Q.
Proof.
unfold sum_num. revert a.
induction qs as [|q qs IH]; intros a; cbn [fold_left].
- ring.
- rewrite (IH (a + q)%Q), (IH (inject_Z 0 + q)%Q). ring.
Qed.

Lemma sum_num_cons (q : Q) (qs : list Q) :
(sum_num (q :: qs) == q + sum_num qs)%Q.
Proof.
unfold sum_num at 1. cbn [fold_left]. rewrite sum_num_acc. ring.
Qed.

Lemma sum_num_bounds (qs : list Q) :
Forall (fun q => 0 <= q <= 100)%Q qs ->
(0 <= sum_num qs <= 100 * inject_Z (Z.of_nat (length qs)))%Q.
Proof.
induction 1 as [|q qs Hq _ IH].
- split; unfold Qle; simpl; lia.
- rewrite sum_num_cons. cbn [length].
  rewrite Nat2Z.inj_succ. unfold Z.succ. rewrite inject_Z_plus.
  change (inject_Z 1) with 1%Q. lra.
Qed.

Lemma sum_num_const (qs : list Q) :
Forall (fun q => q == 100)%Q qs ->
(sum_num qs == 100 * inject_Z (Z.of_nat (length qs)))%Q.
Proof.
induction 1 as [|q qs Hq _ IH].
- reflexivity.
- rewrite sum_num_cons, Hq, IH. cbn [length].
  rewrite Nat2Z.inj_succ. unfold Z.succ. rewrite inject_Z_plus. ring.
Qed.

Lemma inject_Z_pos (m : Z) : 0 < m -> (0 < inject_Z m)%Q.
Proof. intros H. change 0%Q with (inject_Z 0). rewrite <- Zlt_Qlt. exact H. Qed.

Lemma truediv_pos (a : Q) (m : Z) :
0 < m -> truediv a (inject_Z m) = Ret (a / inject_Z m)%Q.
Proof.
intros H. unfold truediv.
destruct (Qeq_bool (inject_Z m) (inject_Z 0)) eqn:E; [|reflexivity].
apply Qeq_bool_eq in E. apply inject_Z_pos in H.
change (inject_Z 0) with 0%Q in E. lra.
Qed.

Lemma truediv_zero (a : Q) : truediv a (inject_Z 0) = Raise ZeroDivisionError.
Proof. reflexivity. Qed.

Lemma ratio_bounds (d m : Z) :
0 <= d <= m -> 0 < m -> (0 <= inject_Z d / inject_Z m <= 1)%Q.
Proof.
intros [Hd Hm] Hpos. pose proof (inject_Z_pos m Hpos) as Hq.
split.
- apply Qle_shift_div_l; [exact Hq|].
  rewrite Qmult_0_l. change 0%Q with (inject_Z 0). rewrite <- Zle_Qle. exact Hd.
- apply Qle_shift_div_r; [exact Hq|].
  rewrite Qmult_1_l. rewrite <- Zle_Qle. exact Hm.
Qed.

(** The Hamming count of a pair of components lies between 0 and the
  length of the shorter one. *)
Lemma distance_bounds (p1 p2 : string) :
0 <= sum_bool (map differ (zip (chars p1) (chars p2)))
  <= Z.min (len p1) (len p2).
Proof.
pose proof (sum_bool_bounds (map differ (zip (chars p1) (chars p2)))) as H.
rewrite length_map in H.
pose proof (zip_length_le_l (chars p1) (chars p2)) as Hl.
pose proof (zip_length_le_r (chars p1) (chars p2)) as Hr.
rewrite chars_length in Hl, Hr. unfold len. lia.
Qed.

Lemma component_similarity_cases (p1 p2 : string) :
(p1 = EmptyString /\ p2 = EmptyString
 /\ component_similarity (p1, p2) = Raise ZeroDivisionError)
\/ (exists q, component_similarity (p1, p2) = Ret q /\ (0 <= q <= 100)%Q).
Proof.
unfold component_similarity.
pose proof (distance_bounds p1 p2) as Hd.
destruct (Z.eq_dec (Z.max (len p1) (len p2)) 0) as [E|E].
- left. unfold len in E.
  assert (String.length p1 = 0%nat /\ String.length p2 = 0%nat) as [H1 H2] by lia.
  destruct p1; [|discriminate]. destruct p2; [|discriminate]. auto.
- right. unfold len in *.
  assert (0 < Z.max (Z.of_nat (String.length p1)) (Z.of_nat (String.length p2)))
    as Hpos by lia.
  rewrite (truediv_pos _ _ Hpos). eexists. split; [reflexivity|].
  assert (0 <= sum_bool (map differ (zip (chars p1) (chars p2)))
          <= Z.max (Z.of_nat (String.length p1)) (Z.of_nat (String.length p2)))
    as Hdm by lia.
  pose proof (ratio_bounds _ _ Hdm Hpos) as Hr.
  revert Hr. generalize (inject_Z (sum_bool (map differ (zip (chars p1) (chars p2))))
    / inject_Z (Z.max (Z.of_nat (String.length p1)) (Z.of_nat (String.length p2))))%Q.
  intros r Hr. change (inject_Z 1) with 1%Q. change (inject_Z 100) with 100%Q.
  lra.
Qed.

Lemma component_similarity_diag (p : string) :
p <> EmptyString ->
exists q, component_similarity (p, p) = Ret q /\ (q == 100)%Q.
Proof.
intros Hp. unfold component_similarity.
rewrite differ_zip_diag, Z.max_id.
assert (0 < len p) as Hpos.
{ unfold len. destruct p; [congruence|]. simpl String.length. lia. }
rewrite (truediv_pos _ _ Hpos). eexists. split; [reflexivity|].
pose proof (inject_Z_pos _ Hpos).
change (inject_Z 0) with 0%Q. change (inject_Z 1) with 1%Q.
change (inject_Z 100) with 100%Q. field. lra.
Qed.


Lemma for_append_cases (l : list (string * string)) :
(exists e, for_append component_similarity l = Raise e)
\/ (exists qs, for_append component_similarity l = Ret qs
               /\ Forall in_range qs /\ length qs = length l).
Proof.
induction l as [|[p1 p2] l IH]; cbn [for_append].
- right. exists []. repeat split. constructor.
- destruct (component_similarity_cases p1 p2) as [(_ & _ & E)|(q & E & Hq)];
    rewrite E.
  + left. eexists. reflexivity.
  + destruct IH as [[e E']|(qs & E' & Hqs & Hlen)]; rewrite E'.
    * left. eexists. reflexivity.
    * right. exists (q :: qs). repeat split.
      -- constructor; assumption.
      -- simpl. congruence.
Qed.

Lemma for_append_diag (ps : list string) :
forallb nonempty ps = true ->
exists qs, for_append component_similarity (zip ps ps) = Ret qs
           /\ Forall (fun q => q == 100)%Q qs /\ length qs = length ps.
Proof.
unfold zip. induction ps as [|p ps IH]; cbn [forallb combine for_append]; intros H.
- exists []. repeat split. constructor.
- apply andb_prop in H as [Hp Hps].
  destruct (component_similarity_diag p) as (q & E & Hq).
  { destruct p; [discriminate|congruence]. }
  destruct (IH Hps) as (qs & E' & Hqs & Hlen).
  rewrite E, E'. exists (q :: qs). repeat split.
  + constructor; assumption.
  + simpl. congruence.
Qed.

Lemma split_nonempty (sep : ascii) (s : string) : split sep s <> [].
Proof.
induction s as [|c s IH]; simpl; [discriminate|].
destruct (Ascii.eqb c sep); [discriminate|].
destruct (split sep s); [congruence|discriminate].
Qed.

Lemma split_app (sep : ascii) (a e : string) :
split sep (a ++ String sep e)%string = (split sep a ++ split sep e)%list.
Proof.
induction a as [|c a IH]; simpl.
- rewrite Ascii.eqb_refl. reflexivity.
- destruct (Ascii.eqb c sep); [rewrite IH; reflexivity|].
  rewrite IH. pose proof (split_nonempty sep a) as Hne.
  destruct (split sep a); [congruence|reflexivity].
Qed.

Lemma zip_app_r {A B : Type} (xs : list A) (ys zs : list B) :
(length xs <= length ys)%nat -> zip xs (ys ++ zs)%list = zip xs ys.
Proof.
unfold zip. revert ys. induction xs as [|x xs IH]; intros [|y ys] H; simpl in *;
  try reflexivity; try lia.
f_equal. apply IH. lia.
Qed.

Lemma similarity_try_range (fp1 fp2 : pyval) (q : Q) :
similarity_try fp1 fp2 = Ret q -> in_range q.
Proof.
unfold similarity_try.
destruct fp1 as [|s1]; [discriminate|]. destruct fp2 as [|s2]; [discriminate|].
py_simpl.
destruct (for_append_cases (zip (split "_"%char s1) (split "_"%char s2)))
  as [[e E]|(qs & E & Hqs & Hlen)]; rewrite E; [discriminate|].
py_simpl. destruct (length qs) as [|n] eqn:En.
- change (Z.of_nat 0) with 0. rewrite truediv_zero. discriminate.
- assert (0 < Z.of_nat (S n)) as Hpos by lia.
  rewrite (truediv_pos _ _ Hpos). intros [= <-].
  pose proof (sum_num_bounds qs Hqs) as Hs. rewrite En in Hs.
  pose proof (inject_Z_pos _ Hpos) as Hn. unfold in_range. split.
  + apply Qle_shift_div_l; [exact Hn|]. lra.
  + apply Qle_shift_div_r; [exact Hn|]. lra.
Qed.

Lemma similarity_total (fp1 fp2 : pyval) :
exists q, calculate_fingerprint_similarity fp1 fp2 = Ret q /\ in_range q.
Proof.
unfold calculate_fingerprint_similarity, try_except.
destruct (similarity_try fp1 fp2) as [q|e] eqn:E.
- exists q. split; [reflexivity|]. eapply similarity_try_range; eassumption.
- eexists. split; [reflexivity|]. split; unfold Qle; simpl; lia.
Qed.

Lemma similarity_comm (a b : pyval) :
calculate_fingerprint_similarity a b = calculate_fingerprint_similarity b a.
Proof.
unfold calculate_fingerprint_similarity, similarity_try.
destruct a as [|s1], b as [|s2]; try reflexivity.
py_simpl.
rewrite (for_append_zip_comm (split "_"%char s1) (split "_"%char s2)).
reflexivity.
Qed.

Lemma similarity_diag (f : string) :
valid_fingerprint f = true ->
exists q, calculate_fingerprint_similarity (PyStr f) (PyStr f) = Ret q
          /\ (q == 100)%Q.
Proof.
unfold valid_fingerprint. intros Hv.
destruct (for_append_diag _ Hv) as (qs & E & Hqs & Hlen).
unfold calculate_fingerprint_similarity, similarity_try.
py_simpl. rewrite E. py_simpl.
assert (0 < Z.of_nat (length qs)) as Hpos.
{ rewrite Hlen. pose proof (split_nonempty "_"%char f).
  destruct (split "_"%char f); [congruence|simpl; lia]. }
rewrite (truediv_pos _ _ Hpos). py_simpl.
eexists. split; [reflexivity|].
rewrite (sum_num_const qs Hqs). pose proof (inject_Z_pos _ Hpos). field. lra.
Qed.

Lemma split_app_last (sep : ascii) (s t : string) :
  split sep t = [t] ->
  split sep (s ++ t)%string = app_last (split sep s) t.
Proof.
  intros Ht. induction s as [|c s IH].
  - cbn [String.append split app_last]. exact Ht.
  - change (String c s ++ t)%string with (String c (s ++ t)%string).
    cbn [split]. rewrite IH. pose proof (split_nonempty sep s) as Hne.
    destruct (Ascii.eqb c sep).
    + destruct (split sep s) as [|p ps]; [congruence|reflexivity].
    + destruct (split sep s) as [|p [|p' ps]]; [congruence| |]; reflexivity.
Qed.

Lemma chars_app (s t : string) : chars (s ++ t)%string = (chars s ++ chars t)%list.
Proof. unfold chars. induction s as [|c s IH]; simpl; [reflexivity|]. rewrite IH. reflexivity. Qed.

Lemma differ_zip_prefix (xs ys : list ascii) :
  sum_bool (map differ (zip xs (xs ++ ys)%list)) = 0.
Proof.
  induction xs as [|x xs IH]; [reflexivity|].
  simpl. rewrite sum_bool_cons, IH. unfold differ. simpl.
  rewrite Ascii.eqb_refl. reflexivity.
Qed.

Lemma component_similarity_prefix (p t : string) :
  p <> EmptyString ->
  exists q, component_similarity (p, (p ++ t)%string) = Ret q /\ (q == 100)%Q.
Proof.
  intros Hp. unfold component_similarity.
  rewrite chars_app, differ_zip_prefix.
  assert (0 < Z.max (len p) (len (p ++ t))) as Hpos.
  { unfold len. destruct p; [congruence|]. simpl String.length. lia. }
  rewrite (truediv_pos _ _ Hpos). eexists. split; [reflexivity|].
  pose proof (inject_Z_pos _ Hpos).
  change (inject_Z 0) with 0%Q. change (inject_Z 1) with 1%Q.
  change (inject_Z 100) with 100%Q. py_simpl. field. lra.
Qed.

Lemma for_append_app_last (ps : list string) (t : string) :
  forallb nonempty ps = true ->
  exists qs, for_append component_similarity (zip ps (app_last ps t)) = Ret qs
             /\ Forall (fun q => q == 100)%Q qs /\ length qs = length ps.
Proof.
  unfold zip. induction ps as [|p ps IH]; intros H.
  - exists []. repeat split. constructor.
  - cbn [forallb] in H. apply andb_prop in H as [Hp Hps].
    assert (p <> EmptyString) as Hp' by (destruct p; [discriminate|congruence]).
    destruct ps as [|p' ps].
    + cbn [app_last combine for_append].
      destruct (component_similarity_prefix p t Hp') as (q & E & Hq).
      rewrite E. exists [q]. repeat split. constructor; [exact Hq|constructor].
    + change (app_last (p :: p' :: ps) t) with (p :: app_last (p' :: ps) t).
      destruct (component_similarity_diag p Hp') as (q & E & Hq).
      destruct (IH Hps) as (qs & E' & Hqs & Hlen).
      revert E' Hlen. generalize (p' :: ps). intros tl E' Hlen.
      cbn [combine for_append].
      rewrite E, E'. exists (q :: qs). repeat split.
      * constructor; assumption.
      * cbn [length] in *. congruence.
Qed.

Lemma similarity_extended (f t : string) :
  valid_fingerprint f = true -> split "_"%char t = [t] ->
  exists q, calculate_fingerprint_similarity (PyStr f) (PyStr (f ++ t)) = Ret q
            /\ (q == 100)%Q.
Proof.
  unfold valid_fingerprint. intros Hv Ht.
  destruct (for_append_app_last _ t Hv) as (qs & E & Hqs & Hlen).
  unfold calculate_fingerprint_similarity, similarity_try.
  py_simpl. rewrite (split_app_last _ _ _ Ht), E. py_simpl.
  assert (0 < Z.of_nat (length qs)) as Hpos.
  { rewrite Hlen. pose proof (split_nonempty "_"%char f).
    destruct (split "_"%char f); [congruence|simpl; lia]. }
  rewrite (truediv_pos _ _ Hpos). py_simpl.
  eexists. split; [reflexivity|].
  rewrite (sum_num_const qs Hqs). pose proof (inject_Z_pos _ Hpos). field. lra.
Qed.

End ScorerFacts.

(** C1 (as amended).  The scorer has no shape check: for every pair of
    arguments it returns a number between 0 and 100 and never raises.  The
    components of the longer fingerprint that have no partner in the
    shorter one are ignored, and so are the characters of the longer
    component of a pair that have no partner in the shorter one: a
    fingerprint scores 100 against itself with its last component
    lengthened. *)
Theorem similarity_never_fails_and_truncates :
  (forall fp1 fp2 : pyval,
      exists q, calculate_fingerprint_similarity fp1 fp2 = Ret q
                /\ (0 <= q <= 100)%Q)
  /\ (forall a b extra : string,
        (length (split "_"%char a) <= length (split "_"%char b))%nat ->
        calculate_fingerprint_similarity (PyStr a) (PyStr (b ++ String "_"%char extra))
        = calculate_fingerprint_similarity (PyStr a) (PyStr b))
  /\ (forall f t : string,
        valid_fingerprint f = true -> split "_"%char t = [t] ->
        exists q, calculate_fingerprint_similarity (PyStr f) (PyStr (f ++ t)) = Ret q
                  /\ (q == 100)%Q).
Proof.
  split; [|split].
  - intros fp1 fp2. apply similarity_total.
  - intros a b extra Hlen.
    unfold calculate_fingerprint_similarity, similarity_try.
    py_simpl.
    rewrite split_app, zip_app_r by exact Hlen. reflexivity.
  - intros f t. apply similarity_extended.
Qed.

Lemma similarity_never_fails_and_truncates_witness :
  ((length (split "_"%char "ffff_0000_abcd")
    <= length (split "_"%char "ffff_0000_abcd"))%nat
   /\ calculate_fingerprint_similarity
        (PyStr "ffff_0000_abcd") (PyStr ("ffff_0000_abcd" ++ String "_"%char "1234"))
      = calculate_fingerprint_similarity (PyStr "ffff_0000_abcd") (PyStr "ffff_0000_abcd"))
  /\ (valid_fingerprint "ffff_0000_abcd" = true
      /\ split "_"%char "00" = ["00"]
      /\ exists q,
           calculate_fingerprint_similarity
             (PyStr "ffff_0000_abcd") (PyStr ("ffff_0000_abcd" ++ "00")) = Ret q
           /\ (q == 100)%Q).
Proof.
  split; [split|split; [|split]].
  - simpl. lia.
  - apply (proj1 (proj2 similarity_never_fails_and_truncates)). simpl. lia.
  - reflexivity.
  - reflexivity.
  - apply (proj2 (proj2 similarity_never_fails_and_truncates)); reflexivity.
Defined.

(** C1 (as stated) fails: two fingerprints that differ in the number of
    components and in the length of the first component are scored, and
    scored 100. *)
Lemma similarity_shape_mismatch_scored :
  shape "ffff_0000_abcd" <> shape "ffff00_0000_abcd_1234"
  /\ exists q,
       calculate_fingerprint_similarity
         (PyStr "ffff_0000_abcd") (PyStr "ffff00_0000_abcd_1234") = Ret q
       /\ (q == 100)%Q.
Proof.
  split; [discriminate|].
  eexists. split; [vm_compute; reflexivity|]. reflexivity.
Qed.

(** C9.  The score is symmetric in its two arguments, and a fingerprint
    none of whose components is empty scores 100 against itself. *)
Theorem similarity_symmetric_reflexive :
  (forall a b : pyval,
      calculate_fingerprint_similarity a b = calculate_fingerprint_similarity b a)
  /\ (forall f : string,
        valid_fingerprint f = true ->
        exists q, calculate_fingerprint_similarity (PyStr f) (PyStr f) = Ret q
                  /\ (q == 100)%Q).
Proof. split; [apply similarity_comm | apply similarity_diag]. Qed.

Lemma similarity_symmetric_reflexive_witness :
  valid_fingerprint "ffff_0000_abcd" = true
  /\ exists q,
       calculate_fingerprint_similarity
         (PyStr "ffff_0000_abcd") (PyStr "ffff_0000_abcd") = Ret q
       /\ (q == 100)%Q.
Proof.
  split; [reflexivity|].
  apply (proj2 similarity_symmetric_reflexive). reflexivity.
Defined.

(** * Properties of the search *)

Section SortFacts.
Context {A : Type} (key : A -> Q).

Lemma insert_desc_perm (x : A) (l : list A) :
  Permutation (insert_desc key x l) (x :: l).
Proof.
  induction l as [|y l IH]; cbn [insert_desc].
  - apply Permutation_refl.
  - destruct (Qle_bool (key y) (key x)).
    + apply Permutation_refl.
    + eapply Permutation_trans; [apply perm_skip, IH | apply perm_swap].
Qed.

Lemma sort_desc_perm (l : list A) : Permutation (sort_desc key l) l.
Proof.
  induction l as [|x l IH]; cbn [sort_desc].
  - apply Permutation_refl.
  - eapply Permutation_trans; [apply insert_desc_perm | apply perm_skip, IH].
Qed.

Let desc (a b : A) : Prop := (key b <= key a)%Q.

Lemma insert_desc_sorted (x : A) (l : list A) :
  StronglySorted desc l -> StronglySorted desc (insert_desc key x l).
Proof.
  induction 1 as [|y l Hs IH Hy]; cbn [insert_desc].
  - constructor; constructor.
  - destruct (Qle_bool (key y) (key x)) eqn:Hc.
    + apply Qle_bool_iff in Hc. constructor.
      * constructor; assumption.
      * constructor; [exact Hc|].
        eapply List.Forall_impl; [|exact Hy]. intros z Hz. unfold desc in *.
        eapply Qle_trans; eassumption.
    + assert (key x < key y)%Q as Hlt.
      { apply Qnot_le_lt. intros Hle. apply Qle_bool_iff in Hle. congruence. }
      constructor; [exact IH|].
      apply (Permutation_Forall (Permutation_sym (insert_desc_perm x l))).
      constructor; [|exact Hy]. unfold desc. apply Qlt_le_weak. exact Hlt.
Qed.

Lemma sort_desc_sorted (l : list A) : StronglySorted desc (sort_desc key l).
Proof.
  induction l as [|x l IH]; cbn [sort_desc].
  - constructor.
  - apply insert_desc_sorted, IH.
Qed.

(** Stability: the elements of one key value come out in the order in
    which they went in. *)
Lemma insert_desc_stable (q : Q) (x : A) (l : list A) :
  List.filter (fun a => Qeq_bool (key a) q) (insert_desc key x l)
  = List.filter (fun a => Qeq_bool (key a) q) (x :: l).
Proof.
  induction l as [|y l IH]; cbn [insert_desc]; [reflexivity|].
  destruct (Qle_bool (key y) (key x)) eqn:Hc; [reflexivity|].
  cbn [List.filter] in *. rewrite IH.
  destruct (Qeq_bool (key x) q) eqn:Hx, (Qeq_bool (key y) q) eqn:Hy;
    try reflexivity.
  apply Qeq_bool_eq in Hx, Hy.
  assert (Qle_bool (key y) (key x) = true) as Hle.
  { apply Qle_bool_iff. rewrite Hx, Hy. apply Qle_refl. }
  congruence.
Qed.

Lemma sort_desc_stable (q : Q) (l : list A) :
  List.filter (fun a => Qeq_bool (key a) q) (sort_desc key l)
  = List.filter (fun a => Qeq_bool (key a) q) l.
Proof.
  induction l as [|x l IH]; cbn [sort_desc]; [reflexivity|].
  rewrite insert_desc_stable. cbn [List.filter]. rewrite IH. reflexivity.
Qed.
End SortFacts.

Lemma score_spec (fp : pyval) (r : fp_record) :
  calculate_fingerprint_similarity fp (PyStr (fingerprint r)) = Ret (score fp r)
  /\ in_range (score fp r).
Proof.
  unfold score.
  destruct (similarity_total fp (PyStr (fingerprint r))) as (q & E & Hq).
  rewrite E. split; [reflexivity | exact Hq].
Qed.

Lemma scan_database_eq (db : database) (fp : pyval) (threshold : Q) :
  scan_database db fp threshold = Ret (matches_in_store_order db fp threshold).
Proof.
  unfold matches_in_store_order.
  induction db as [|[k r] db IH]; cbn [scan_database List.filter map]; [reflexivity|].
  rewrite (proj1 (score_spec fp r)), IH. py_simpl. cbn [snd].
  destruct (Qle_bool threshold (score fp r)); reflexivity.
Qed.

Lemma find_similar_images_eq (db : database) (fp : pyval) (threshold : Q) :
  find_similar_images db fp threshold
  = Ret (sort_desc similarity (matches_in_store_order db fp threshold)).
Proof.
  unfold find_similar_images. rewrite scan_database_eq. reflexivity.
Qed.

Lemma matches_all_below_zero (db : database) (fp : pyval) (t : Q) :
  (t < 0)%Q -> matches_in_store_order db fp t = map (match_of fp) db.
Proof.
  intros Ht. unfold matches_in_store_order. f_equal.
  induction db as [|[k r] db IH]; cbn [List.filter snd]; [reflexivity|].
  destruct (score_spec fp r) as [_ [Hlo _]].
  assert (Qle_bool t (score fp r) = true) as ->.
  { apply Qle_bool_iff. lra. }
  rewrite IH. reflexivity.
Qed.

Lemma matches_none_above_hundred (db : database) (fp : pyval) (t : Q) :
  (100 < t)%Q -> matches_in_store_order db fp t = [].
Proof.
  intros Ht. unfold matches_in_store_order.
  induction db as [|[k r] db IH]; cbn [List.filter snd map]; [reflexivity|].
  destruct (score_spec fp r) as [_ [_ Hhi]].
  destruct (Qle_bool t (score fp r)) eqn:Hc; [|exact IH].
  apply Qle_bool_iff in Hc. lra.
Qed.

(** C7 (as amended).  [find_similar_images] always returns; its result holds
    exactly the records that reach the threshold, in descending order of
    similarity, and the records of one similarity value stand in the order
    in which the store holds them: neither the first-seen timestamp nor the
    record ID is consulted. *)
Theorem find_similar_descending_stable (db : database) (fp : pyval) (t : Q) :
  exists l,
    find_similar_images db fp t = Ret l
    /\ Permutation l (matches_in_store_order db fp t)
    /\ StronglySorted descending l
    /\ forall q, List.filter (same_similarity q) l
                 = List.filter (same_similarity q) (matches_in_store_order db fp t).
Proof.
  exists (sort_desc similarity (matches_in_store_order db fp t)).
  split; [apply find_similar_images_eq|].
  split; [apply sort_desc_perm|].
  split; [apply sort_desc_sorted|].
  intros q. apply (sort_desc_stable similarity q).
Qed.

(** C7 (as stated) fails: two records tie on similarity; the one first seen
    later, with the larger ID, is returned first because the store holds it
    first. *)
Lemma find_similar_ties_in_store_order :
  exists a b,
    find_similar_images tied_store tied_query (inject_Z 90) = Ret [a; b]
    /\ id a = "e9d4c5e3bbd2d214" /\ id b = "5e4f093ea3cc2661"
    /\ Qeq_bool (similarity a) (similarity b) = true
    /\ String.ltb (first_seen_of tied_store b) (first_seen_of tied_store a) = true
    /\ String.ltb (id b) (id a) = true
    /\ spec_ordered tied_store [a; b] = false.
Proof.
  eexists. eexists. split; [vm_compute; reflexivity|].
  repeat split; vm_compute; reflexivity.
Qed.

(** C8 (as amended).  The threshold is not validated: for every threshold
    the call returns a list.  On an empty store the list is empty; below 0
    it holds every record of the store; above 100 it is empty. *)
Theorem find_similar_accepts_every_threshold (db : database) (fp : pyval) (t : Q) :
  exists l,
    find_similar_images db fp t = Ret l
    /\ (db = [] -> l = [])
    /\ ((t < 0)%Q -> Permutation (map id l) (dict_keys db))
    /\ ((100 < t)%Q -> l = []).
Proof.
  exists (sort_desc similarity (matches_in_store_order db fp t)).
  split; [apply find_similar_images_eq|].
  split; [|split].
  - intros ->. reflexivity.
  - intros Ht. rewrite (matches_all_below_zero db fp t Ht).
    eapply Permutation_trans; [apply Permutation_map, sort_desc_perm|].
    unfold dict_keys. rewrite map_map. apply Permutation_refl.
  - intros Ht. rewrite (matches_none_above_hundred db fp t Ht). reflexivity.
Qed.

Lemma find_similar_accepts_every_threshold_witness :
  exists l,
    find_similar_images tied_store tied_query (-1 # 1)%Q = Ret l
    /\ Permutation (map id l) (dict_keys tied_store).
Proof.
  destruct (find_similar_accepts_every_threshold tied_store tied_query (-1 # 1)%Q)
    as (l & El & _ & Hall & _).
  exists l. split; [exact El|]. apply Hall. reflexivity.
Defined.

(** C8 (as stated) fails: a threshold of -1 and a threshold of 101 are both
    answered with a list. *)
Lemma find_similar_out_of_range_threshold_returns :
  (exists a b, find_similar_images tied_store tied_query (-1 # 1)%Q = Ret [a; b])
  /\ find_similar_images tied_store tied_query (101 # 1)%Q = Ret [].
Proof.
  split.
  - eexists. eexists. vm_compute. reflexivity.
  - vm_compute. reflexivity.
Qed.

(** * Properties of the store *)

Ltac cmd_unfold :=
  cbv beta iota zeta delta
    [cmd_try os_makedirs_parent open_w write_text read_text os_rename
     os_path_exists os_path_getsize now_isoformat tick get_self get_os
     set_database set_files set_loaded_images raise lift
     bind ret cmd_sequencing cmd_bind cmd_ret py_sequencing py_bind
     self os files ticks disk rename_refused storage_file loaded_images
     fingerprint_database fst snd negb].

Lemma save_outcome (E : externals) (s : state) :
  exists (b : bool) (s' : state),
    save_fingerprint_database E s = (Ret b, s') /\ self s' = self s.
Proof.
  destruct s as [[sf li db] [fs tk dk rr]].
  unfold save_fingerprint_database. cmd_unfold.
  destruct dk as [| | |k]; cmd_unfold;
    try (destruct (k <? String.length (json_dumps E db))%nat; cmd_unfold);
    do 2 eexists; (split; reflexivity).
Qed.

Lemma save_self (E : externals) (s : state) :
  self (snd (save_fingerprint_database E s)) = self s.
Proof.
  destruct (save_outcome E s) as (b & s' & Es & Hself). rewrite Es. exact Hself.
Qed.

Ltac cmd_unfold_in H :=
  cbv beta iota zeta delta
    [cmd_try os_makedirs_parent open_w write_text read_text os_rename
     os_path_exists os_path_getsize now_isoformat tick get_self get_os
     set_database set_files set_loaded_images raise lift
     bind ret cmd_sequencing cmd_bind cmd_ret py_sequencing py_bind
     self os files ticks disk rename_refused storage_file loaded_images
     fingerprint_database fst snd negb] in H.

(** C3 (as amended).  [save_fingerprint_database] never raises and leaves the
    processor object as it was.  It returns [False] in exactly three cases:
    the directory cannot be made or the file cannot be opened, and then the
    file system is untouched; or the disk fills up while the text is
    written, and then the storage path, emptied when it was opened, holds
    only the characters written so far.  Otherwise it returns [True] and the
    storage path holds the whole serialized database. *)
Theorem save_never_raises_but_truncates (E : externals) (s : state) :
  let path := storage_file (self s) in
  let text := json_dumps E (fingerprint_database (self s)) in
  exists (b : bool) (s' : state),
    save_fingerprint_database E s = (Ret b, s')
    /\ self s' = self s
    /\ match disk (os s) with
       | DiskOk =>
           b = true /\ files (os s') = <[path := text]> (files (os s))
       | MakedirsDenied | OpenDenied =>
           b = false /\ os s' = os s
       | DiskFullAfter k =>
           if (k <? String.length text)%nat
           then b = false
                /\ files (os s') = <[path := substring 0 k text]> (files (os s))
           else b = true /\ files (os s') = <[path := text]> (files (os s))
       end.
Proof.
  destruct s as [[sf li db] [fs tk dk rr]].
  unfold save_fingerprint_database. cmd_unfold.
  destruct dk as [| | |k]; cmd_unfold.
  - do 2 eexists. split; [reflexivity|]. cmd_unfold. rewrite insert_insert_eq. auto.
  - do 2 eexists. split; [reflexivity|]. cmd_unfold. auto.
  - do 2 eexists. split; [reflexivity|]. cmd_unfold. auto.
  - destruct (k <? String.length (json_dumps E db))%nat; cmd_unfold;
      do 2 eexists; (split; [reflexivity|]); cmd_unfold;
      rewrite insert_insert_eq; auto.
Qed.

(** C3 (as stated) fails: the disk fills up after five characters; the call
    returns [False], and the storage path, which held a complete earlier
    version, now holds the first five characters of the new one. *)
Lemma save_failure_loses_previous_version :
  let s := {| self := {| storage_file := "/db/image_fingerprints.json";
                         loaded_images := [];
                         fingerprint_database := tied_store |};
              os := {| files := <["/db/image_fingerprints.json" := "{e9d4c5e3bbd2d214}"]> ∅;
                       ticks := 0;
                       disk := DiskFullAfter 5;
                       rename_refused := false |} |} in
  let r := save_fingerprint_database sample_externals s in
  files (os s) !! "/db/image_fingerprints.json" = Some "{e9d4c5e3bbd2d214}"
  /\ fst r = Ret false
  /\ files (os (snd r)) !! "/db/image_fingerprints.json" = Some "{e9d4".
Proof. vm_compute. auto. Qed.

Section DictFacts.
Context {V : Type}.
Implicit Types (d : list (string * V)) (k : string) (f g : V -> V).

Lemma dict_get_update_eq f k d :
  dict_get (dict_update f k d) k = option_map f (dict_get d k).
Proof.
  induction d as [|[k' v] d IH]; cbn [dict_update dict_get]; [reflexivity|].
  destruct (String.eqb k' k) eqn:Ek; cbn [dict_get]; rewrite Ek;
    [reflexivity | exact IH].
Qed.

Lemma dict_get_update_ne f k k' d :
  k' <> k -> dict_get (dict_update f k d) k' = dict_get d k'.
Proof.
  intros Hne. induction d as [|[k0 v] d IH]; cbn [dict_update dict_get];
    [reflexivity|].
  destruct (String.eqb k0 k) eqn:Ek; cbn [dict_get].
  - apply String.eqb_eq in Ek. subst k0.
    assert (String.eqb k k' = false) as -> by (apply String.eqb_neq; congruence).
    reflexivity.
  - rewrite IH. reflexivity.
Qed.

Lemma dict_update_update f g k d :
  dict_update g k (dict_update f k d) = dict_update (fun v => g (f v)) k d.
Proof.
  induction d as [|[k' v] d IH]; cbn [dict_update]; [reflexivity|].
  destruct (String.eqb k' k) eqn:Ek; cbn [dict_update]; rewrite Ek;
    [reflexivity | rewrite IH; reflexivity].
Qed.

Lemma dict_keys_update f k d : dict_keys (dict_update f k d) = dict_keys d.
Proof.
  unfold dict_keys. induction d as [|[k' v] d IH]; cbn [dict_update map];
    [reflexivity|].
  destruct (String.eqb k' k); cbn [map fst]; [reflexivity | rewrite IH; reflexivity].
Qed.

Lemma dict_update_app_new f k v d :
  dict_get d k = None ->
  dict_update f k (d ++ [(k, v)])%list = (d ++ [(k, f v)])%list.
Proof.
  induction d as [|[k' v'] d IH]; cbn [dict_get dict_update app]; intros Hn.
  - rewrite String.eqb_refl. reflexivity.
  - destruct (String.eqb k' k); [discriminate|]. rewrite (IH Hn). reflexivity.
Qed.

Lemma dict_get_app_ne k k' v d :
  k' <> k -> dict_get (d ++ [(k, v)])%list k' = dict_get d k'.
Proof.
  intros Hne. induction d as [|[k0 v0] d IH]; cbn [dict_get app].
  - assert (String.eqb k k' = false) as -> by (apply String.eqb_neq; congruence).
    reflexivity.
  - destruct (String.eqb k0 k'); [reflexivity | exact IH].
Qed.

Lemma dict_get_app_new k v d :
  dict_get d k = None -> dict_get (d ++ [(k, v)])%list k = Some v.
Proof.
  induction d as [|[k0 v0] d IH]; cbn [dict_get app]; intros Hn.
  - rewrite String.eqb_refl. reflexivity.
  - destruct (String.eqb k0 k); [discriminate | exact (IH Hn)].
Qed.

Lemma dict_contains_false k d : dict_contains d k = false -> dict_get d k = None.
Proof. unfold dict_contains. destruct (dict_get d k); [discriminate|reflexivity]. Qed.

Lemma dict_update_Forall (P : V -> Prop) f k d :
  (forall v, P v -> P (f v)) ->
  Forall (fun kv => P (snd kv)) d -> Forall (fun kv => P (snd kv)) (dict_update f k d).
Proof.
  intros Hf. induction 1 as [|[k' v] d Hv Hd IH]; cbn [dict_update].
  - constructor.
  - destruct (String.eqb k' k); constructor; try assumption.
    cbn [snd] in *. apply Hf, Hv.
Qed.
End DictFacts.

(** What [add_to_fingerprint_database] computes for a fingerprint text. *)
Lemma add_eq (E : externals) (s : state) (f : string) (info : image_info) :
  add_to_fingerprint_database E (PyStr f) info s
  = (Ret PyNone, snd (save_fingerprint_database E (before_save E f info s))).
Proof.
  destruct s as [[sf li db] [fs tk dk rr]].
  unfold add_to_fingerprint_database, before_save, registered, encode.
  cmd_unfold.
  destruct (dict_contains db (record_id E f)) eqn:Hc; cbv beta iota delta [negb];
    cmd_unfold;
    match goal with
    | |- context [save_fingerprint_database E ?s1] =>
        destruct (save_outcome E s1) as (b & s' & Es & _); rewrite Es
    end; reflexivity.
Qed.

Lemma add_none (E : externals) (s : state) (info : image_info) :
  add_to_fingerprint_database E PyNone info s = (Raise AttributeError, s).
Proof. reflexivity. Qed.

Lemma registered_new (E : externals) (f : string) (info : image_info) (k : nat)
    (db : database) :
  dict_get db (record_id E f) = None ->
  registered E f info k db
  = (db ++ [(record_id E f,
             {| fingerprint := f;
                original_filename := info_filename info;
                first_seen := isoformat_now E k;
                locations := [location_of info (isoformat_now E (S k))];
                count := 1 |})])%list.
Proof.
  intros Hn. unfold registered, dict_setitem, dict_contains. rewrite Hn.
  rewrite dict_update_update, dict_update_app_new by exact Hn. reflexivity.
Qed.

Lemma registered_old (E : externals) (f : string) (info : image_info) (k : nat)
    (db : database) (r : fp_record) :
  dict_get db (record_id E f) = Some r ->
  dict_get (registered E f info k db) (record_id E f)
  = Some {| fingerprint := fingerprint r;
            original_filename := original_filename r;
            first_seen := first_seen r;
            locations := (locations r ++ [location_of info (isoformat_now E k)])%list;
            count := count r + 1 |}
  /\ dict_keys (registered E f info k db) = dict_keys db.
Proof.
  intros Hr. unfold registered, dict_contains. rewrite Hr. split.
  - rewrite !dict_get_update_eq, Hr. reflexivity.
  - rewrite !dict_keys_update. reflexivity.
Qed.

Lemma registered_other (E : externals) (f : string) (info : image_info) (k : nat)
    (db : database) (k' : string) :
  k' <> record_id E f ->
  dict_get (registered E f info k db) k' = dict_get db k'.
Proof.
  intros Hne. unfold registered, dict_setitem.
  destruct (dict_contains db (record_id E f)) eqn:Hc.
  - rewrite !dict_get_update_ne by exact Hne. reflexivity.
  - rewrite !dict_get_update_ne by exact Hne. apply dict_get_app_ne. exact Hne.
Qed.

Lemma registered_invariant (E : externals) (f : string) (info : image_info) (k : nat)
    (db : database) :
  Forall (fun kv => count_matches_locations (snd kv)) db ->
  Forall (fun kv => count_matches_locations (snd kv)) (registered E f info k db).
Proof.
  intros Hdb.
  assert (forall l r, count_matches_locations r ->
            count_matches_locations (increment_count (append_location l r))) as Hstep.
  { intros l r Hr. unfold count_matches_locations in *. cbn [increment_count
      append_location count locations]. rewrite length_app. cbn [length]. lia. }
  unfold registered. destruct (dict_contains db (record_id E f)) eqn:Hc;
    rewrite dict_update_update.
  - apply (dict_update_Forall count_matches_locations); [apply Hstep | exact Hdb].
  - apply (dict_update_Forall count_matches_locations); [apply Hstep|].
    unfold dict_setitem. rewrite Hc. apply Forall_app. split; [exact Hdb|].
    constructor; [|constructor]. reflexivity.
Qed.

(** C5 (as amended).  For a fingerprint text [f] the call returns [None]
    (the method has no return value) after handing the updated store to
    [save_fingerprint_database], whose status it discards.  The record ID is
    the first 16 digits of the MD5 of [f].  If the store has no record under
    that ID, one is added after all others with count 1 and a single
    location; if it has one, a location is appended to it, its count grows
    by 1 and its place in the store is kept.  No other record changes. *)
Theorem add_creates_or_appends_then_saves (E : externals) (s : state) (f : string)
    (info : image_info) :
  let rid := record_id E f in
  let db := fingerprint_database (self s) in
  let k := ticks (os s) in
  let s1 := before_save E f info s in
  let db1 := fingerprint_database (self s1) in
  add_to_fingerprint_database E (PyStr f) info s
  = (Ret PyNone, snd (save_fingerprint_database E s1))
  /\ rid = substring 0 16 (md5_hexdigest E f)
  /\ fingerprint_database (self (snd (save_fingerprint_database E s1))) = db1
  /\ files (os s1) = files (os s)
  /\ (forall k', k' <> rid -> dict_get db1 k' = dict_get db k')
  /\ match dict_get db rid with
     | None =>
         db1 = (db ++ [(rid,
                        {| fingerprint := f;
                           original_filename := info_filename info;
                           first_seen := isoformat_now E k;
                           locations := [location_of info (isoformat_now E (S k))];
                           count := 1 |})])%list
     | Some r =>
         dict_get db1 rid
         = Some {| fingerprint := fingerprint r;
                   original_filename := original_filename r;
                   first_seen := first_seen r;
                   locations :=
                     (locations r ++ [location_of info (isoformat_now E k)])%list;
                   count := count r + 1 |}
         /\ dict_keys db1 = dict_keys db
     end.
Proof.
  cbv zeta. split; [apply add_eq|]. split; [reflexivity|].
  split; [rewrite save_self; reflexivity|]. split; [reflexivity|].
  cbn [before_save self fingerprint_database].
  split; [intros k' Hk'; apply registered_other, Hk'|].
  destruct (dict_get (fingerprint_database (self s)) (record_id E f)) as [r|] eqn:Hr.
  - apply registered_old, Hr.
  - apply registered_new, Hr.
Qed.

Lemma add_creates_or_appends_then_saves_witness :
  let info := {| info_path := "/img/a.png"; info_filename := "a.png";
                 info_fingerprint := PyStr "0000_1011_0011";
                 info_load_time := None; info_file_size := Some 4 |} in
  let s1 := before_save sample_externals "0000_1011_0011" info sample_state in
  "ffff_0000_abcd" <> record_id sample_externals "0000_1011_0011"
  /\ fst (add_to_fingerprint_database sample_externals
            (PyStr "0000_1011_0011") info sample_state) = Ret PyNone
  /\ dict_get (fingerprint_database (self s1)) "ffff_0000_abcd"
     = dict_get (fingerprint_database (self sample_state)) "ffff_0000_abcd"
  /\ exists r, dict_get (fingerprint_database (self s1))
                 (record_id sample_externals "0000_1011_0011") = Some r
               /\ count r = 1 /\ length (locations r) = 1%nat.
Proof.
  cbv zeta.
  match goal with
  | |- context [before_save _ ?f ?info ?s] =>
      destruct (add_creates_or_appends_then_saves sample_externals s f info)
        as (Hadd & _ & _ & _ & Hother & Hrec)
  end.
  split; [discriminate|].
  split; [rewrite Hadd; reflexivity|].
  split; [apply Hother; discriminate|].
  cbn [dict_get sample_state self fingerprint_database] in Hrec.
  rewrite Hrec. eexists. split; [vm_compute; reflexivity|]. split; reflexivity.
Defined.

(** C5 (as stated) fails: the value returned is [None], not the record ID,
    when the record is created and when it already exists. *)
Lemma add_returns_none_not_record_id :
  let info := {| info_path := "/img/a.png"; info_filename := "a.png";
                 info_fingerprint := PyStr "0000_1011_0011";
                 info_load_time := None; info_file_size := Some 4 |} in
  let first := add_to_fingerprint_database sample_externals
                 (PyStr "0000_1011_0011") info sample_state in
  let second := add_to_fingerprint_database sample_externals
                  (PyStr "0000_1011_0011") info (snd first) in
  fst first = Ret PyNone
  /\ fst second = Ret PyNone
  /\ dict_keys (fingerprint_database (self (snd second)))
     = [record_id sample_externals "0000_1011_0011"]
  /\ PyNone <> PyStr (record_id sample_externals "0000_1011_0011").
Proof. vm_compute. repeat split; discriminate. Qed.

(** C10.  From an empty database, whatever calls of
    [add_to_fingerprint_database] follow and whatever the environment does
    in between, every record's count equals the length of its location
    list. *)
Theorem count_equals_number_of_locations (E : externals) (s : state) :
  reachable E s ->
  Forall (fun kv => count_matches_locations (snd kv)) (fingerprint_database (self s)).
Proof.
  induction 1 as [sf li w | s w _ IH | s fp info _ IH].
  - constructor.
  - exact IH.
  - destruct fp as [|f].
    + rewrite add_none. exact IH.
    + rewrite add_eq. cbn [snd]. rewrite save_self.
      cbn [before_save self fingerprint_database].
      apply registered_invariant, IH.
Qed.

Lemma count_equals_number_of_locations_witness :
  let info := {| info_path := "/img/a.png"; info_filename := "a.png";
                 info_fingerprint := PyStr "0000_1011_0011";
                 info_load_time := None; info_file_size := Some 4 |} in
  let s := snd (add_to_fingerprint_database sample_externals
                  (PyStr "0000_1011_0011") info
                  (snd (add_to_fingerprint_database sample_externals
                          (PyStr "0000_1011_0011") info sample_state))) in
  reachable sample_externals s
  /\ Forall (fun kv => count_matches_locations (snd kv))
            (fingerprint_database (self s)).
Proof.
  cbv zeta.
  assert (reachable sample_externals sample_state) as H0 by apply reach_empty.
  split.
  - apply reach_add, reach_add, H0.
  - apply (count_equals_number_of_locations sample_externals).
    apply reach_add, reach_add, H0.
Defined.

(** * Properties of the generator *)

(** C4 (as amended).  [generate_perceptual_hash] never raises.  When the
    normalisation of the buffer or one of the three hashes raises, the
    exception is caught inside the method and [None] is returned in place
    of a fingerprint; otherwise the three hashes joined by underscores are
    returned. *)
Theorem generate_returns_none_on_failure (E : externals) (image_array : ndarray E) :
  (exists e,
      perceptual_hash_try E image_array = Raise e
      /\ generate_perceptual_hash E image_array = Ret PyNone)
  \/ (exists (normalized : ndarray E) (pil : pil_image E) (a p d : string),
        (if is_uint8 E image_array then Ret image_array
         else scale_uint8 E image_array) = Ret normalized
        /\ fromarray E normalized = Ret pil
        /\ average_hash E pil = Ret a
        /\ phash E pil = Ret p
        /\ dhash E pil = Ret d
        /\ generate_perceptual_hash E image_array
           = Ret (PyStr (a ++ "_" ++ p ++ "_" ++ d))).
Proof.
  unfold generate_perceptual_hash, perceptual_hash_try.
  destruct (if is_uint8 E image_array then Ret image_array
            else scale_uint8 E image_array) as [n|e]; py_simpl;
    [|left; eauto].
  destruct (fromarray E n) as [pil|e] eqn:H1; py_simpl; [|left; eauto].
  destruct (average_hash E pil) as [a|e] eqn:H2; py_simpl; [|left; eauto].
  destruct (phash E pil) as [p|e] eqn:H3; py_simpl; [|left; eauto].
  destruct (dhash E pil) as [d|e] eqn:H4; py_simpl; [|left; eauto].
  right. exists n, pil, a, p, d. repeat split; assumption || reflexivity.
Qed.

(** C4 (as stated) fails: an empty buffer, which [Image.fromarray] refuses,
    makes the method return [None]; nothing is raised. *)
Lemma generate_absorbs_unusable_buffer :
  fromarray sample_externals ([] : ndarray sample_externals) = Raise TypeError
  /\ generate_perceptual_hash sample_externals ([] : ndarray sample_externals)
     = Ret PyNone.
Proof. split; reflexivity. Qed.

(** * Properties of loading *)

(** C6.  When the storage file exists and its text cannot be parsed,
    [load_fingerprint_database] returns without raising and leaves an empty
    database.  If the operating system performs the rename, the text is then
    found under the storage path followed by [.backup] and no longer under
    the storage path; if the rename is refused, the refusal is swallowed and
    the files are as they were. *)
Theorem load_recovers_from_unparsable_file (E : externals) (s : state) (text : string) :
  files (os s) !! storage_file (self s) = Some text ->
  json_loads E text = None ->
  exists s',
    load_fingerprint_database E s = (Ret tt, s')
    /\ fingerprint_database (self s') = []
    /\ storage_file (self s') = storage_file (self s)
    /\ (if rename_refused (os s)
        then files (os s') = files (os s)
        else files (os s')
             = <[storage_file (self s) ++ ".backup" := text]>
                 (delete (storage_file (self s)) (files (os s)))).
Proof.
  destruct s as [[sf li db] [fs tk dk rr]].
  cbn [self os files storage_file rename_refused fingerprint_database].
  intros Hfile Hparse.
  unfold load_fingerprint_database, backup_suffix. cmd_unfold.
  destruct dk as [| | |k], rr;
    repeat (first [rewrite Hfile | rewrite Hparse]; cmd_unfold);
    eexists; (split; [reflexivity|]); cmd_unfold; auto.
Qed.

Lemma load_recovers_from_unparsable_file_witness :
  let s := {| self := {| storage_file := "/db/image_fingerprints.json";
                         loaded_images := [];
                         fingerprint_database := tied_store |};
              os := {| files := <["/db/image_fingerprints.json" := "{e9d4c5e3"]> ∅;
                       ticks := 0;
                       disk := DiskOk;
                       rename_refused := false |} |} in
  exists s',
    load_fingerprint_database sample_externals s = (Ret tt, s')
    /\ fingerprint_database (self s') = []
    /\ files (os s') !! "/db/image_fingerprints.json" = None
    /\ files (os s') !! "/db/image_fingerprints.json.backup" = Some "{e9d4c5e3".
Proof.
  cbv zeta.
  match goal with
  | |- context [load_fingerprint_database _ ?s] =>
      destruct (load_recovers_from_unparsable_file sample_externals s "{e9d4c5e3")
        as (s' & Hload & Hdb & _ & Hfiles)
  end.
  - vm_compute. reflexivity.
  - reflexivity.
  - exists s'. split; [exact Hload|]. split; [exact Hdb|].
    cbn [rename_refused os] in Hfiles. rewrite Hfiles.
    split; vm_compute; reflexivity.
Defined.

(** * Properties of the ingest *)

(** What a successful [load_image_from_path] has done. *)
Lemma load_image_locals_inv (E : externals) (path : string) (s : state)
    (L : ingest_locals) (s' : state) :
  load_image_locals E path s = (Ret L, s') ->
  exists (f : string),
    info_fingerprint (image_info_of L) = PyStr f
    /\ find_similar_images (fingerprint_database (self s)) (PyStr f) (inject_Z 90)
       = Ret (similar_images L)
    /\ fingerprint_database (self s')
       = registered E f (image_info_of L) (S (ticks (os s)))
           (fingerprint_database (self s)).
Proof.
  destruct s as [[sf li db] [fs tk dk rr]].
  cbn [self os fingerprint_database ticks].
  unfold load_image_locals, load_image_try. intros H. cmd_unfold_in H.
  destruct (fs !! path) as [content|] eqn:Hfile; cmd_unfold_in H; [|discriminate H].
  destruct (check_image_format E path); cbv beta iota delta [negb] in H;
    cmd_unfold_in H; [|discriminate H].
  repeat (rewrite Hfile in H; cmd_unfold_in H).
  destruct (decode_rgb E content) as [arr|e]; cmd_unfold_in H; [|discriminate H].
  destruct (generate_perceptual_hash E arr) as [[|f]|e]; cmd_unfold_in H;
    try discriminate H;
    rewrite find_similar_images_eq in H; cmd_unfold_in H;
    repeat (rewrite Hfile in H; cmd_unfold_in H).
  - rewrite add_none in H. discriminate H.
  - rewrite add_eq in H.
    match type of H with
    | context [save_fingerprint_database E ?s1] =>
        pose proof (save_self E s1) as Hself;
        destruct (save_fingerprint_database E s1) as [r s2]
    end.
    cbn [snd] in *. cbv beta iota delta [slice_to] in H. cmd_unfold_in H.
    injection H as HL Hs. subst L s'. exists f.
    cbn [image_info_of similar_images info_fingerprint].
    split; [reflexivity|].
    split; [rewrite find_similar_images_eq; reflexivity|].
    rewrite Hself. reflexivity.
Qed.

Lemma In_dict_contains {V : Type} (d : list (string * V)) (k : string) (v : V) :
  In (k, v) d -> dict_contains d k = true.
Proof.
  unfold dict_contains.
  induction d as [|[k0 v0] d IH]; cbn [In dict_get]; [tauto|].
  intros [Heq|Hin].
  - injection Heq as -> ->. rewrite String.eqb_refl. reflexivity.
  - destruct (String.eqb k0 k); [reflexivity | exact (IH Hin)].
Qed.

Lemma In_matches (db : database) (fp : pyval) (t : Q) (m : similar) :
  In m (matches_in_store_order db fp t) <->
  exists k r, In (k, r) db /\ m = match_of fp (k, r)
              /\ Qle_bool t (score fp r) = true.
Proof.
  unfold matches_in_store_order. rewrite in_map_iff. split.
  - intros ([k r] & <- & Hin). apply filter_In in Hin as [Hin Ht].
    exists k, r. auto.
  - intros (k & r & Hin & -> & Ht). exists (k, r). split; [reflexivity|].
    apply filter_In. auto.
Qed.

Lemma In_found (db : database) (fp : pyval) (t : Q) (l : list similar) (m : similar) :
  find_similar_images db fp t = Ret l ->
  (In m l <-> In m (matches_in_store_order db fp t)).
Proof.
  rewrite find_similar_images_eq. intros [= <-].
  split; apply Permutation_in;
    [apply sort_desc_perm | apply Permutation_sym, sort_desc_perm].
Qed.

Lemma score_self (f : string) (r : fp_record) :
  valid_fingerprint f = true -> fingerprint r = f ->
  (score (PyStr f) r == 100)%Q.
Proof.
  intros Hv Hf. unfold score. rewrite Hf.
  destruct (similarity_diag f Hv) as (q & Eq & Hq). rewrite Eq. exact Hq.
Qed.

(** * Further properties of the scorer *)

Lemma for_append_Ret_all {A B : Type} (f : A -> py B) (xs : list A) (ys : list B) :
  for_append f xs = Ret ys -> Forall2 (fun x y => f x = Ret y) xs ys.
Proof.
  revert ys. induction xs as [|x xs IH]; intros ys; cbn [for_append].
  - intros [= <-]. constructor.
  - destruct (f x) as [y|e] eqn:Ex; py_simpl; [|discriminate].
    destruct (for_append f xs) as [ys'|e] eqn:Exs; py_simpl; [|discriminate].
    intros [= <-]. constructor; [exact Ex | apply IH; reflexivity].
Qed.

Lemma for_append_Ret_In {A B : Type} (f : A -> py B) (xs : list A) (ys : list B)
    (x : A) :
  for_append f xs = Ret ys -> In x xs -> exists y, f x = Ret y.
Proof.
  intros H. apply for_append_Ret_all in H.
  induction H as [|x0 y0 xs ys Hxy _ IH]; cbn [In]; [tauto|].
  intros [<-|Hin]; [eauto | exact (IH Hin)].
Qed.

Lemma component_similarity_empty :
  component_similarity (EmptyString, EmptyString) = Raise ZeroDivisionError.
Proof. reflexivity. Qed.

Lemma nth_error_zip {A B : Type} (xs : list A) (ys : list B) (i : nat) (x : A) (y : B) :
  nth_error xs i = Some x -> nth_error ys i = Some y -> In (x, y) (zip xs ys).
Proof.
  unfold zip. revert ys i.
  induction xs as [|x0 xs IH]; intros [|y0 ys] [|i]; cbn [nth_error combine];
    try discriminate.
  - intros [= ->] [= ->]. left. reflexivity.
  - intros Hx Hy. right. eapply IH; eassumption.
Qed.

(** X1.  A missing fingerprint ([None]) on either side scores 0, and so
    does every pair of fingerprints that have an empty component at the
    same position, whatever their other components: the division by zero
    is swallowed by the handler. *)
Theorem similarity_zero_on_none_or_empty_component :
  (forall fp : pyval,
      calculate_fingerprint_similarity PyNone fp = Ret (inject_Z 0)
      /\ calculate_fingerprint_similarity fp PyNone = Ret (inject_Z 0))
  /\ (forall (a b : string) (i : nat),
        nth_error (split "_"%char a) i = Some EmptyString ->
        nth_error (split "_"%char b) i = Some EmptyString ->
        calculate_fingerprint_similarity (PyStr a) (PyStr b) = Ret (inject_Z 0)).
Proof.
  split.
  - intros fp. split; [reflexivity|]. destruct fp; reflexivity.
  - intros a b i Ha Hb.
    unfold calculate_fingerprint_similarity, similarity_try. py_simpl.
    destruct (for_append component_similarity
                (zip (split "_"%char a) (split "_"%char b))) as [qs|e] eqn:Eq;
      py_simpl; [|reflexivity].
    exfalso.
    pose proof (nth_error_zip _ _ _ _ _ Ha Hb) as Hin.
    destruct (for_append_Ret_In _ _ _ _ Eq Hin) as (q & Hq).
    rewrite component_similarity_empty in Hq. discriminate.
Qed.

Lemma similarity_zero_on_none_or_empty_component_witness :
  nth_error (split "_"%char "ffff__abcd") 1 = Some EmptyString
  /\ nth_error (split "_"%char "0000__1234") 1 = Some EmptyString
  /\ calculate_fingerprint_similarity (PyStr "ffff__abcd") (PyStr "0000__1234")
     = Ret (inject_Z 0).
Proof.
  split; [reflexivity|]. split; [reflexivity|].
  apply (proj2 similarity_zero_on_none_or_empty_component "ffff__abcd" "0000__1234" 1%nat);
    reflexivity.
Defined.













(** * Further properties of the search *)

Section SortFilter.
Context {A : Type} (key : A -> Q) (P : A -> bool).

Lemma insert_desc_head (x : A) (l : list A) :
  Forall (fun z => key z <= key x)%Q l -> insert_desc key x l = x :: l.
Proof.
  destruct l as [|y l]; [reflexivity|]. intros H. cbn [insert_desc].
  apply Forall_inv in H. apply Qle_bool_iff in H. rewrite H. reflexivity.
Qed.

Lemma filter_insert_desc (x : A) (l : list A) :
  StronglySorted (fun a b => key b <= key a)%Q l ->
  List.filter P (insert_desc key x l)
  = if P x then insert_desc key x (List.filter P l) else List.filter P l.
Proof.
  induction 1 as [|y l Hs IH Hy]; cbn [insert_desc List.filter].
  - destruct (P x); reflexivity.
  - destruct (Qle_bool (key y) (key x)) eqn:Hc; cbn [List.filter].
    + destruct (P x) eqn:Px; [|reflexivity].
      destruct (P y) eqn:Py.
      * cbn [insert_desc]. rewrite Hc. reflexivity.
      * symmetry. apply insert_desc_head.
        apply Qle_bool_iff in Hc.
        apply List.Forall_forall. intros z Hz. apply filter_In in Hz as [Hz _].
        rewrite List.Forall_forall in Hy. specialize (Hy z Hz). cbn beta in Hy.
        eapply Qle_trans; eassumption.
    + rewrite IH. destruct (P x) eqn:Px, (P y) eqn:Py; try reflexivity.
      cbn [insert_desc]. rewrite Hc. reflexivity.
Qed.

Lemma filter_sort_desc (l : list A) :
  List.filter P (sort_desc key l) = sort_desc key (List.filter P l).
Proof.
  induction l as [|x l IH]; [reflexivity|]. cbn [sort_desc List.filter].
  rewrite filter_insert_desc by apply sort_desc_sorted.
  rewrite IH. destruct (P x); reflexivity.
Qed.
End SortFilter.

Lemma filter_filter_le (db : database) (fp : pyval) (t1 t2 : Q) :
  (t1 <= t2)%Q ->
  List.filter (fun kv => Qle_bool t2 (score fp (snd kv)))
    (List.filter (fun kv => Qle_bool t1 (score fp (snd kv))) db)
  = List.filter (fun kv => Qle_bool t2 (score fp (snd kv))) db.
Proof.
  intros Ht. induction db as [|kv db IH]; [reflexivity|]. cbn [List.filter].
  destruct (Qle_bool t2 (score fp (snd kv))) eqn:H2.
  - assert (Qle_bool t1 (score fp (snd kv)) = true) as ->.
    { apply Qle_bool_iff in H2. apply Qle_bool_iff. eapply Qle_trans; eassumption. }
    cbn [List.filter]. rewrite H2, IH. reflexivity.
  - destruct (Qle_bool t1 (score fp (snd kv))); cbn [List.filter];
      rewrite ?H2; exact IH.
Qed.

Lemma filter_map_comm {A B : Type} (f : A -> B) (P : B -> bool) (l : list A) :
  List.filter P (map f l) = map f (List.filter (fun a => P (f a)) l).
Proof.
  induction l as [|a l IH]; [reflexivity|]. cbn [map List.filter].
  destruct (P (f a)); cbn [map]; rewrite IH; reflexivity.
Qed.

(** X3.  Raising the threshold only removes matches: the answer at a higher
    threshold is the answer at a lower one with the matches below the
    higher threshold left out, the others keeping their order. *)
Theorem find_similar_threshold_monotone (db : database) (fp : pyval) (t1 t2 : Q)
    (l1 : list similar) :
  (t1 <= t2)%Q ->
  find_similar_images db fp t1 = Ret l1 ->
  find_similar_images db fp t2
  = Ret (List.filter (fun m => Qle_bool t2 (similarity m)) l1).
Proof.
  intros Ht. rewrite !find_similar_images_eq. intros [= <-]. f_equal.
  rewrite filter_sort_desc. f_equal.
  unfold matches_in_store_order. rewrite filter_map_comm. cbn [match_of similarity].
  rewrite filter_filter_le by exact Ht. reflexivity.
Qed.

Lemma find_similar_threshold_monotone_witness :
  exists l1,
    (inject_Z 90 <= inject_Z 95)%Q
    /\ find_similar_images tied_store tied_query (inject_Z 90) = Ret l1
    /\ find_similar_images tied_store tied_query (inject_Z 95)
       = Ret (List.filter (fun m => Qle_bool (inject_Z 95) (similarity m)) l1).
Proof.
  assert ((inject_Z 90 <= inject_Z 95)%Q) as Hle by (unfold Qle; simpl; lia).
  pose proof (find_similar_images_eq tied_store tied_query (inject_Z 90)) as H1.
  eexists. split; [exact Hle|]. split; [exact H1|].
  apply (find_similar_threshold_monotone _ _ _ _ _ Hle H1).
Defined.




Lemma NoDup_keys_filter {V : Type} (P : string * V -> bool) (d : list (string * V)) :
  List.NoDup (dict_keys d) -> List.NoDup (dict_keys (List.filter P d)).
Proof.
  unfold dict_keys. induction d as [|kv d IH]; cbn [map List.filter]; intros H.
  - constructor.
  - apply NoDup_cons_iff in H as [Hnin Hnd].
    destruct (P kv); [|exact (IH Hnd)].
    cbn [map]. apply NoDup_cons_iff. split; [|exact (IH Hnd)].
    intros Hin. apply Hnin. apply in_map_iff in Hin as (kv' & <- & Hin').
    apply filter_In in Hin' as [Hin' _]. apply in_map. exact Hin'.
Qed.

(** X5.  In a store whose keys are distinct, no record is reported twice:
    the IDs of the matches are distinct, and there are at most as many
    matches as records. *)
Theorem find_similar_reports_each_record_once (db : database) (fp : pyval) (t : Q)
    (l : list similar) :
  List.NoDup (dict_keys db) ->
  find_similar_images db fp t = Ret l ->
  List.NoDup (map id l) /\ (length l <= length db)%nat.
Proof.
  intros Hnd. rewrite find_similar_images_eq. intros [= <-].
  pose proof (sort_desc_perm similarity (matches_in_store_order db fp t)) as Hperm.
  split.
  - eapply Permutation_NoDup;
      [apply Permutation_sym, Permutation_map, Hperm|].
    unfold matches_in_store_order. rewrite map_map. cbn [match_of id].
    apply (NoDup_keys_filter _ db Hnd).
  - rewrite (Permutation_length Hperm). unfold matches_in_store_order.
    rewrite length_map. apply filter_length_le.
Qed.

Lemma find_similar_reports_each_record_once_witness :
  exists l,
    List.NoDup (dict_keys tied_store)
    /\ find_similar_images tied_store tied_query (inject_Z 90) = Ret l
    /\ List.NoDup (map id l) /\ (length l <= length tied_store)%nat.
Proof.
  assert (List.NoDup (dict_keys tied_store)) as Hnd.
  { repeat constructor; cbn [In]; intros H; repeat destruct H as [H|H];
      try discriminate H; exact H. }
  pose proof (find_similar_images_eq tied_store tied_query (inject_Z 90)) as Hfind.
  eexists. split; [exact Hnd|]. split; [exact Hfind|].
  exact (find_similar_reports_each_record_once _ _ _ _ Hnd Hfind).
Defined.

Lemma sort_desc_constant {A : Type} (key : A -> Q) (q : Q) (l : list A) :
  Forall (fun a => key a = q) l -> sort_desc key l = l.
Proof.
  induction 1 as [|x l Hx Hl IH]; [reflexivity|]. cbn [sort_desc]. rewrite IH.
  apply insert_desc_head. apply List.Forall_forall. intros z Hz.
  rewrite List.Forall_forall in Hl. rewrite (Hl z Hz), Hx. apply Qle_refl.
Qed.

(** X6.  A query without a fingerprint ([None], what a failed generation
    yields) scores 0 against every record: at a positive threshold it
    matches nothing, and at a threshold of 0 or less it returns the whole
    store in the store's order. *)
Theorem find_similar_without_fingerprint (db : database) (t : Q) :
  ((0 < t)%Q -> find_similar_images db PyNone t = Ret [])
  /\ ((t <= 0)%Q ->
      find_similar_images db PyNone t
      = Ret (map (fun kv => {| id := fst kv; similarity := inject_Z 0;
                               data := fst kv |}) db)).
Proof.
  rewrite find_similar_images_eq. unfold matches_in_store_order.
  split; intros Ht; f_equal.
  - assert (List.filter (fun kv : string * fp_record =>
                           Qle_bool t (score PyNone (snd kv))) db = []) as ->;
      [|reflexivity].
    induction db as [|kv db IH]; [reflexivity|]. cbn [List.filter].
    change (score PyNone (snd kv)) with (inject_Z 0).
    destruct (Qle_bool t (inject_Z 0)) eqn:Hc; [|exact IH].
    apply Qle_bool_iff in Hc. change (inject_Z 0) with 0%Q in Hc. lra.
  - assert (List.filter (fun kv : string * fp_record =>
                           Qle_bool t (score PyNone (snd kv))) db = db) as ->.
    { induction db as [|kv db IH]; [reflexivity|]. cbn [List.filter].
      change (score PyNone (snd kv)) with (inject_Z 0).
      assert (Qle_bool t (inject_Z 0) = true) as -> by (apply Qle_bool_iff; exact Ht).
      rewrite IH. reflexivity. }
    apply (sort_desc_constant similarity (inject_Z 0)).
    apply List.Forall_forall. intros m Hm. apply in_map_iff in Hm as (kv & <- & _).
    reflexivity.
Qed.

Lemma find_similar_without_fingerprint_witness :
  (0 < inject_Z 90)%Q
  /\ find_similar_images tied_store PyNone (inject_Z 90) = Ret [].
Proof.
  assert ((0 < inject_Z 90)%Q) as Hpos by reflexivity.
  split; [exact Hpos|].
  apply (proj1 (find_similar_without_fingerprint tied_store (inject_Z 90)) Hpos).
Defined.

(** * Further properties of the generator *)

Lemma split_three (a p d : string) :
  split "_"%char a = [a] -> split "_"%char p = [p] -> split "_"%char d = [d] ->
  split "_"%char (a ++ "_" ++ p ++ "_" ++ d) = [a; p; d].
Proof.
  intros Ha Hp Hd.
  change (a ++ "_" ++ p ++ "_" ++ d)%string
    with (a ++ String "_"%char (p ++ String "_"%char d))%string.
  rewrite !split_app, Ha, Hp, Hd. reflexivity.
Qed.

(** X7.  A fingerprint that [generate_perceptual_hash] returns is made of
    the three hashes in the order average, perceptual, difference.  When
    none of the hashes contains an underscore, splitting the fingerprint
    gives back exactly these three, and when moreover none is empty the
    fingerprint scores 100 against itself. *)
Theorem generate_three_components (E : externals) (image_array : ndarray E)
    (f : string) :
  generate_perceptual_hash E image_array = Ret (PyStr f) ->
  exists (normalized : ndarray E) (pil : pil_image E) (a p d : string),
    (if is_uint8 E image_array then Ret image_array
     else scale_uint8 E image_array) = Ret normalized
    /\ fromarray E normalized = Ret pil
    /\ average_hash E pil = Ret a /\ phash E pil = Ret p /\ dhash E pil = Ret d
    /\ f = (a ++ "_" ++ p ++ "_" ++ d)%string
    /\ (split "_"%char a = [a] -> split "_"%char p = [p] ->
        split "_"%char d = [d] ->
        split "_"%char f = [a; p; d]
        /\ (nonempty a && nonempty p && nonempty d = true ->
            exists q, calculate_fingerprint_similarity (PyStr f) (PyStr f) = Ret q
                      /\ (q == 100)%Q)).
Proof.
  unfold generate_perceptual_hash, perceptual_hash_try.
  destruct (if is_uint8 E image_array then Ret image_array
            else scale_uint8 E image_array) as [n|e]; py_simpl; [|discriminate].
  destruct (fromarray E n) as [pil|e] eqn:H1; py_simpl; [|discriminate].
  destruct (average_hash E pil) as [a|e] eqn:H2; py_simpl; [|discriminate].
  destruct (phash E pil) as [p|e] eqn:H3; py_simpl; [|discriminate].
  destruct (dhash E pil) as [d|e] eqn:H4; py_simpl; [|discriminate].
  intros [= <-]. exists n, pil, a, p, d.
  repeat (split; [assumption || reflexivity|]).
  intros Ha Hp Hd. pose proof (split_three a p d Ha Hp Hd) as Hsplit.
  split; [exact Hsplit|]. intros Hne.
  apply similarity_diag. unfold valid_fingerprint. rewrite Hsplit.
  cbn [forallb]. rewrite andb_true_r. rewrite <- andb_assoc in Hne. exact Hne.
Qed.

Lemma generate_three_components_witness :
  exists f q,
    generate_perceptual_hash sample_externals
      ([200; 3; 77; 9] : ndarray sample_externals) = Ret (PyStr f)
    /\ split "_"%char f = ["1000"; "0111"; "0101"]
    /\ calculate_fingerprint_similarity (PyStr f) (PyStr f) = Ret q
    /\ (q == 100)%Q.
Proof.
  destruct (generate_three_components sample_externals
              ([200; 3; 77; 9] : ndarray sample_externals) "1000_0111_0101" eq_refl)
    as (n & pil & a & p & d & Hn & Hpil & Ha & Hp & Hd & _ & Hsplit).
  vm_compute in Hn. injection Hn as <-.
  vm_compute in Hpil. injection Hpil as <-.
  vm_compute in Ha. injection Ha as <-.
  vm_compute in Hp. injection Hp as <-.
  vm_compute in Hd. injection Hd as <-.
  destruct (Hsplit eq_refl eq_refl eq_refl) as [Hs Hfull].
  destruct (Hfull eq_refl) as (q & Hq & H100).
  exists "1000_0111_0101", q. repeat split; assumption || reflexivity.
Defined.

(** * Further properties of the store *)

Lemma save_files (E : externals) (s : state) :
  files (os (snd (save_fingerprint_database E s))) = files (os s)
  \/ exists text,
       files (os (snd (save_fingerprint_database E s)))
       = <[storage_file (self s) := text]> (files (os s)).
Proof.
  destruct s as [[sf li db] [fs tk dk rr]].
  unfold save_fingerprint_database. cmd_unfold.
  destruct dk as [| | |k]; cmd_unfold;
    try (destruct (k <? String.length (json_dumps E db))%nat; cmd_unfold);
    try (left; reflexivity);
    right; eexists; rewrite insert_insert_eq; reflexivity.
Qed.

Lemma save_keeps_other_files (E : externals) (s : state) (p : string) :
  p <> storage_file (self s) ->
  files (os (snd (save_fingerprint_database E s))) !! p = files (os s) !! p.
Proof.
  intros Hp. destruct (save_files E s) as [->|[text ->]]; [reflexivity|].
  apply lookup_insert_ne. congruence.
Qed.

Lemma save_keeps_present_files (E : externals) (s : state) (p text : string) :
  files (os s) !! p = Some text ->
  exists text', files (os (snd (save_fingerprint_database E s))) !! p = Some text'.
Proof.
  intros Hp. destruct (save_files E s) as [->|[t ->]]; [eauto|].
  destruct (String.eqb_spec (storage_file (self s)) p) as [->|Hne].
  - rewrite lookup_insert_eq. eauto.
  - rewrite lookup_insert_ne by exact Hne. eauto.
Qed.

(** X8.  [load_fingerprint_database] never raises and never changes the
    storage path of the processor or its loaded images.  Without a storage
    file it starts an empty database and touches nothing.  With a storage
    file that can be opened and parsed it takes the parsed database and
    touches nothing.  With a storage file that cannot be opened, valid or
    not, or cannot be parsed, it starts an empty database and, unless the
    rename is refused, moves the file to the backup path. *)
Theorem load_never_raises (E : externals) (s : state) :
  exists s',
    load_fingerprint_database E s = (Ret tt, s')
    /\ storage_file (self s') = storage_file (self s)
    /\ loaded_images (self s') = loaded_images (self s)
    /\ match files (os s) !! storage_file (self s) with
       | None => fingerprint_database (self s') = [] /\ os s' = os s
       | Some text =>
           match disk (os s), json_loads E text with
           | OpenDenied, _ | _, None =>
               fingerprint_database (self s') = []
               /\ (if rename_refused (os s)
                   then files (os s') = files (os s)
                   else files (os s')
                        = <[storage_file (self s) ++ ".backup" := text]>
                            (delete (storage_file (self s)) (files (os s))))
           | _, Some db => fingerprint_database (self s') = db /\ os s' = os s
           end
       end.
Proof.
  destruct s as [[sf li db] [fs tk dk rr]].
  cbn [self os files storage_file loaded_images rename_refused
       fingerprint_database disk].
  unfold load_fingerprint_database, backup_suffix. cmd_unfold.
  destruct (fs !! sf) as [text|] eqn:Hfile; cmd_unfold.
  - destruct (json_loads E text) as [db'|] eqn:Hparse;
      destruct dk as [| | |k], rr;
      repeat (first [rewrite Hfile | rewrite Hparse]; cmd_unfold);
      eexists; (split; [reflexivity|]); cmd_unfold; auto.
  - eexists. split; [reflexivity|]. cmd_unfold. auto.
Qed.

(** X9.  What [save_fingerprint_database] reports as saved, a processor
    constructed afterwards reads back: when the storage name given to
    [__init__], made absolute if it is relative, is the path that was
    saved to, and the JSON library parses the text it wrote for this
    database back to the same database, [__init__] ends with that database
    on that path and leaves the files as the save left them. *)
Theorem save_then_init_round_trip (E : externals) (P : path_externals)
    (name : string) (s : state) :
  resolve_storage_file P name = storage_file (self s) ->
  fst (save_fingerprint_database E s) = Ret true ->
  json_loads E (json_dumps E (fingerprint_database (self s)))
  = Some (fingerprint_database (self s)) ->
  exists s',
    init E P name (os (snd (save_fingerprint_database E s))) = (Ret tt, s')
    /\ storage_file (self s') = storage_file (self s)
    /\ fingerprint_database (self s') = fingerprint_database (self s)
    /\ os s' = os (snd (save_fingerprint_database E s)).
Proof.
  destruct s as [[sf li db] [fs tk dk rr]].
  cbn [self os storage_file fingerprint_database].
  intros Hname. unfold init. rewrite Hname.
  unfold save_fingerprint_database, load_fingerprint_database. cmd_unfold.
  intros Hsaved Hparse. revert Hsaved.
  destruct dk as [| | |k]; cmd_unfold; try discriminate;
    try (destruct (k <? String.length (json_dumps E db))%nat; cmd_unfold;
         try discriminate);
    intros _;
    repeat (first [rewrite lookup_insert_eq | rewrite Hparse]; cmd_unfold);
    eexists; (split; [reflexivity|]); cmd_unfold; auto.
Qed.

Lemma save_then_init_round_trip_witness :
  exists s',
    resolve_storage_file sample_path_externals "image_fingerprints.json"
    = storage_file (self tied_state)
    /\ fst (save_fingerprint_database text_externals tied_state) = Ret true
    /\ json_loads text_externals (json_dumps text_externals tied_store)
       = Some tied_store
    /\ init text_externals sample_path_externals "image_fingerprints.json"
         (os (snd (save_fingerprint_database text_externals tied_state)))
       = (Ret tt, s')
    /\ fingerprint_database (self s') = tied_store.
Proof.
  assert (resolve_storage_file sample_path_externals "image_fingerprints.json"
          = storage_file (self tied_state)) as Hname by reflexivity.
  assert (fst (save_fingerprint_database text_externals tied_state) = Ret true)
    as Hsaved by reflexivity.
  assert (json_loads text_externals (json_dumps text_externals tied_store)
          = Some tied_store) as Hparse by (vm_compute; reflexivity).
  destruct (save_then_init_round_trip text_externals sample_path_externals
              "image_fingerprints.json" tied_state Hname Hsaved Hparse)
    as (s' & Hinit & _ & Hdb & _).
  exists s'. repeat split; assumption.
Defined.

(** * Further properties of the ingest *)

Lemma generate_never_raises (E : externals) (a : ndarray E) (e : exn) :
  generate_perceptual_hash E a <> Raise e.
Proof.
  unfold generate_perceptual_hash, try_except.
  destruct (perceptual_hash_try E a); discriminate.
Qed.

(** Every way [load_image_from_path] can run. *)
Lemma load_image_locals_cases (E : externals) (path : string) (s : state) :
  let r := load_image_locals E path s in
  (files (os s) !! path = None /\ r = (Raise FileNotFoundError, s))
  \/ (exists content,
        files (os s) !! path = Some content
        /\ check_image_format E path = false /\ r = (Raise ValueError, s))
  \/ (exists content e,
        files (os s) !! path = Some content
        /\ check_image_format E path = true
        /\ decode_rgb E content = Raise e
        /\ r = (Raise (WrappedException e), s))
  \/ (exists content arr,
        files (os s) !! path = Some content
        /\ check_image_format E path = true
        /\ decode_rgb E content = Ret arr
        /\ generate_perceptual_hash E arr = Ret PyNone
        /\ r = (Raise (WrappedException AttributeError),
                ingest_registered (generate_image_hash E arr)
                  (ingest_info E path content PyNone (ticks (os s))) s))
  \/ (exists content arr f,
        files (os s) !! path = Some content
        /\ check_image_format E path = true
        /\ decode_rgb E content = Ret arr
        /\ generate_perceptual_hash E arr = Ret (PyStr f)
        /\ let info := ingest_info E path content (PyStr f) (ticks (os s)) in
           let h := generate_image_hash E arr in
           r = (Ret {| similar_images :=
                         sort_desc similarity
                           (matches_in_store_order (fingerprint_database (self s))
                              (PyStr f) (inject_Z 90));
                       image_hash := h;
                       image_info_of := info |},
                snd (save_fingerprint_database E
                       (before_save E f info (ingest_registered h info s))))).
Proof.
  destruct s as [[sf li db] [fs tk dk rr]].
  cbn [self os files ticks fingerprint_database].
  unfold load_image_locals, load_image_try. cmd_unfold.
  destruct (fs !! path) as [content|] eqn:Hfile; cmd_unfold;
    [|left; split; reflexivity].
  right.
  destruct (check_image_format E path) eqn:Hfmt; cmd_unfold;
    [|left; exists content; repeat split; assumption || reflexivity].
  right. repeat (rewrite Hfile; cmd_unfold).
  destruct (decode_rgb E content) as [arr|e] eqn:Hdec; cmd_unfold;
    [|left; exists content, e; repeat split; assumption || reflexivity].
  right.
  destruct (generate_perceptual_hash E arr) as [[|f]|e] eqn:Hgen; cmd_unfold;
    [| |destruct (generate_never_raises E arr e Hgen)];
    rewrite find_similar_images_eq; cmd_unfold;
    repeat (rewrite Hfile; cmd_unfold).
  - left. exists content, arr. rewrite add_none.
    repeat split; assumption || reflexivity.
  - right. exists content, arr, f. rewrite add_eq.
    match goal with
    | |- context [save_fingerprint_database E ?s1] =>
        destruct (save_fingerprint_database E s1) as [b s2] eqn:Esave
    end.
    cbn [snd]. cbv beta iota delta [slice_to]. cmd_unfold.
    repeat (split; [assumption || reflexivity|]).
    cbv zeta. unfold ingest_registered, ingest_info. cmd_unfold.
    rewrite Esave. reflexivity.
Qed.

Lemma load_image_from_path_eq (E : externals) (path : string) (s : state) :
  load_image_from_path E path s
  = match load_image_locals E path s with
    | (Ret L, s') => (Ret (image_hash L, image_info_of L), s')
    | (Raise e, s') => (Raise e, s')
    end.
Proof. reflexivity. Qed.

(** X10.  What a call of [load_image_from_path] can end in.  A missing file
    and an unsupported extension raise [FileNotFoundError] and [ValueError]
    as they are, and leave the processor and the files untouched.  Every
    other failure is raised wrapped in a plain [Exception], and then no
    observation has been registered and no file written.  On success the
    returned [image_info] carries the given path, the size of the file and
    the fingerprint that was generated. *)
Theorem ingest_outcomes (E : externals) (path : string) (s : state) :
  match load_image_from_path E path s with
  | (Ret (h, info), s') =>
      exists content arr f,
        files (os s) !! path = Some content
        /\ check_image_format E path = true
        /\ decode_rgb E content = Ret arr
        /\ generate_perceptual_hash E arr = Ret (PyStr f)
        /\ h = generate_image_hash E arr
        /\ info = ingest_info E path content (PyStr f) (ticks (os s))
  | (Raise FileNotFoundError, s') => files (os s) !! path = None /\ s' = s
  | (Raise ValueError, s') => check_image_format E path = false /\ s' = s
  | (Raise (WrappedException _), s') =>
      fingerprint_database (self s') = fingerprint_database (self s)
      /\ files (os s') = files (os s)
  | (Raise _, _) => False
  end.
Proof.
  rewrite load_image_from_path_eq.
  destruct (load_image_locals_cases E path s)
    as [(Hf & ->)|[(c & Hf & Hfmt & ->)|[(c & e & Hf & Hfmt & Hdec & ->)
       |[(c & arr & Hf & Hfmt & Hdec & Hgen & ->)
        |(c & arr & f & Hf & Hfmt & Hdec & Hgen & ->)]]]].
  - split; [exact Hf | reflexivity].
  - split; [exact Hfmt | reflexivity].
  - split; reflexivity.
  - split; reflexivity.
  - cbn [image_hash image_info_of]. exists c, arr, f.
    repeat split; assumption || reflexivity.
Qed.

Lemma dict_get_setitem {V : Type} (d : list (string * V)) (k : string) (v : V) :
  dict_get (dict_setitem k v d) k = Some v
  /\ dict_contains (dict_setitem k v d) k = true.
Proof.
  assert (dict_get (dict_setitem k v d) k = Some v) as H.
  { unfold dict_setitem, dict_contains.
    destruct (dict_get d k) as [v0|] eqn:Hk.
    - rewrite dict_get_update_eq, Hk. reflexivity.
    - apply dict_get_app_new, Hk. }
  split; [exact H|]. unfold dict_contains. rewrite H. reflexivity.
Qed.

Lemma get_image_info_registered (h : string) (info : image_info) (s : state) :
  get_image_info (self (ingest_registered h info s)) h = Some info.
Proof.
  unfold get_image_info, ingest_registered. cbn [self loaded_images].
  destruct (dict_get_setitem (loaded_images (self s)) h info) as [-> ->].
  reflexivity.
Qed.

(** X11.  The pair that a successful [load_image_from_path] returns can be
    looked up afterwards: [get_image_info] of the returned hash is the
    returned [image_info]. *)
Theorem ingest_then_get_image_info (E : externals) (path : string) (s s' : state)
    (h : string) (info : image_info) :
  load_image_from_path E path s = (Ret (h, info), s') ->
  get_image_info (self s') h = Some info.
Proof.
  rewrite load_image_from_path_eq.
  destruct (load_image_locals_cases E path s)
    as [(Hf & ->)|[(c & Hf & Hfmt & ->)|[(c & e & Hf & Hfmt & Hdec & ->)
       |[(c & arr & Hf & Hfmt & Hdec & Hgen & ->)
        |(c & arr & f & Hf & Hfmt & Hdec & Hgen & ->)]]]]; try discriminate.
  cbn [image_hash image_info_of]. intros [= <- <- <-].
  rewrite save_self. cbn [before_save self].
  change (get_image_info ?p ?k) with
    (if dict_contains (loaded_images p) k then dict_get (loaded_images p) k else None).
  cbn [loaded_images].
  apply (get_image_info_registered _ _ s).
Qed.

Lemma ingest_then_get_image_info_witness :
  exists h info s',
    load_image_from_path sample_externals "/img/a.png" sample_state
    = (Ret (h, info), s')
    /\ get_image_info (self s') h = Some info.
Proof.
  destruct (load_image_from_path sample_externals "/img/a.png" sample_state)
    as [[[h info]|e] s'] eqn:Erun; [|vm_compute in Erun; discriminate Erun].
  exists h, info, s'. split; [reflexivity|].
  exact (ingest_then_get_image_info _ _ _ _ _ _ Erun).
Defined.

(** X12.  When the file decodes but no fingerprint can be generated, the
    call raises (the missing fingerprint fails in
    [add_to_fingerprint_database], and the failure is wrapped), the store
    and the files are untouched, and yet the image has been entered in
    [loaded_images], with no fingerprint. *)
Theorem ingest_without_fingerprint_keeps_registry_entry (E : externals)
    (path content : string) (arr : ndarray E) (s : state) :
  files (os s) !! path = Some content ->
  check_image_format E path = true ->
  decode_rgb E content = Ret arr ->
  generate_perceptual_hash E arr = Ret PyNone ->
  exists s',
    load_image_from_path E path s = (Raise (WrappedException AttributeError), s')
    /\ fingerprint_database (self s') = fingerprint_database (self s)
    /\ files (os s') = files (os s)
    /\ get_image_info (self s') (generate_image_hash E arr)
       = Some (ingest_info E path content PyNone (ticks (os s))).
Proof.
  intros Hfile Hfmt Hdec Hgen. rewrite load_image_from_path_eq.
  destruct (load_image_locals_cases E path s)
    as [(Hf & ->)|[(c & Hf & Hfmt' & ->)|[(c & e & Hf & Hfmt' & Hdec' & ->)
       |[(c & arr' & Hf & Hfmt' & Hdec' & Hgen' & ->)
        |(c & arr' & f & Hf & Hfmt' & Hdec' & Hgen' & ->)]]]]; try congruence.
  - assert (c = content) as -> by congruence.
    assert (arr' = arr) as -> by (rewrite Hdec in Hdec'; congruence).
    eexists. split; [reflexivity|]. split; [reflexivity|]. split; [reflexivity|].
    apply get_image_info_registered.
Qed.

Lemma ingest_without_fingerprint_keeps_registry_entry_witness :
  exists s' info,
    load_image_from_path failing_hash_externals "/img/a.png" sample_state
    = (Raise (WrappedException AttributeError), s')
    /\ fingerprint_database (self s') = []
    /\ get_image_info (self s') "aXc!" = Some info
    /\ info_fingerprint info = PyNone.
Proof.
  destruct (ingest_without_fingerprint_keeps_registry_entry failing_hash_externals
              "/img/a.png" "aXc!" [97; 88; 99; 33] sample_state)
    as (s' & Hrun & Hdb & _ & Hget); try reflexivity.
  exists s'. eexists. split; [exact Hrun|]. split; [exact Hdb|].
  split; [exact Hget|]. reflexivity.
Defined.

Lemma add_files (E : externals) (fp : pyval) (info : image_info) (s : state)
    (p : string) :
  p <> storage_file (self s) ->
  files (os (snd (add_to_fingerprint_database E fp info s))) !! p
  = files (os s) !! p.
Proof.
  intros Hp. destruct fp as [|f]; [reflexivity|].
  rewrite add_eq. cbn [snd].
  rewrite save_keeps_other_files by exact Hp. reflexivity.
Qed.

Lemma load_files (E : externals) (s : state) (p : string) :
  p <> storage_file (self s) ->
  p <> (storage_file (self s) ++ ".backup")%string ->
  files (os (snd (load_fingerprint_database E s))) !! p = files (os s) !! p.
Proof.
  destruct s as [[sf li db] [fs tk dk rr]].
  cbn [self os files storage_file]. intros Hp Hb.
  unfold load_fingerprint_database, backup_suffix. cmd_unfold.
  destruct (fs !! sf) as [text|] eqn:Hfile; cmd_unfold; [|reflexivity].
  destruct (json_loads E text) as [db'|] eqn:Hparse;
    destruct dk as [| | |k], rr;
    repeat (first [rewrite Hfile | rewrite Hparse]; cmd_unfold);
    try reflexivity;
    rewrite lookup_insert_ne, lookup_delete_ne by congruence; reflexivity.
Qed.

(** X13.  The methods of the store write nowhere but to the storage file:
    saving, registering an observation and ingesting an image leave every
    other path as it was (an ingested image file is never modified), and
    loading leaves every path but the storage file and its backup as it
    was. *)
Theorem store_writes_only_storage_file (E : externals) (s : state) (p : string) :
  p <> storage_file (self s) ->
  files (os (snd (save_fingerprint_database E s))) !! p = files (os s) !! p
  /\ (forall fp info,
        files (os (snd (add_to_fingerprint_database E fp info s))) !! p
        = files (os s) !! p)
  /\ (forall path,
        files (os (snd (load_image_from_path E path s))) !! p = files (os s) !! p)
  /\ (p <> (storage_file (self s) ++ ".backup")%string ->
      files (os (snd (load_fingerprint_database E s))) !! p = files (os s) !! p).
Proof.
  intros Hp. split; [apply save_keeps_other_files, Hp|].
  split; [intros fp info; apply add_files, Hp|].
  split; [|apply load_files, Hp].
  intros path. rewrite load_image_from_path_eq.
  destruct (load_image_locals_cases E path s)
    as [(Hf & ->)|[(c & Hf & Hfmt & ->)|[(c & e & Hf & Hfmt & Hdec & ->)
       |[(c & arr & Hf & Hfmt & Hdec & Hgen & ->)
        |(c & arr & f & Hf & Hfmt & Hdec & Hgen & ->)]]]]; try reflexivity.
  cbn [snd]. rewrite save_keeps_other_files by exact Hp. reflexivity.
Qed.

Lemma store_writes_only_storage_file_witness :
  "/img/a.png" <> storage_file (self sample_state)
  /\ files (os (snd (load_image_from_path sample_externals "/img/a.png"
                       sample_state))) !! "/img/a.png"
     = Some "aXc!".
Proof.
  assert ("/img/a.png" <> storage_file (self sample_state)) as Hne by discriminate.
  split; [exact Hne|].
  rewrite (proj1 (proj2 (proj2 (store_writes_only_storage_file
                                  sample_externals sample_state "/img/a.png" Hne)))).
  reflexivity.
Defined.

Lemma dict_get_In {V : Type} (d : list (string * V)) (k : string) (v : V) :
  dict_get d k = Some v -> In (k, v) d.
Proof.
  induction d as [|[k0 v0] d IH]; cbn [dict_get]; [discriminate|].
  destruct (String.eqb k0 k) eqn:Ek.
  - apply String.eqb_eq in Ek. intros [= ->]. subst. left. reflexivity.
  - intros H. right. exact (IH H).
Qed.

(** X14.  Registering and searching compose: after an observation of a
    fingerprint without empty component has been registered, a search for
    that fingerprint at any threshold up to 100 reports its record with
    similarity 100, provided the record found under its ID, if there was
    one, was a record of that same fingerprint (no ID collision). *)
Theorem add_then_find_similar (E : externals) (s : state) (f : string)
    (info : image_info) (t : Q) :
  valid_fingerprint f = true ->
  (forall r, dict_get (fingerprint_database (self s)) (record_id E f) = Some r ->
             fingerprint r = f) ->
  (t <= 100)%Q ->
  exists l m r,
    find_similar_images
      (fingerprint_database (self (snd (add_to_fingerprint_database E (PyStr f) info s))))
      (PyStr f) t = Ret l
    /\ In m l /\ id m = record_id E f /\ (similarity m == 100)%Q
    /\ deref (fingerprint_database
                (self (snd (add_to_fingerprint_database E (PyStr f) info s))))
             (data m) = Some r
    /\ fingerprint r = f /\ 1 <= Z.of_nat (length (locations r)).
Proof.
  intros Hvalid Hsame Ht. rewrite add_eq. cbn [snd]. rewrite save_self.
  cbn [before_save self fingerprint_database].
  set (db := fingerprint_database (self s)) in *.
  set (db' := registered E f info (ticks (os s)) db).
  assert (exists r, dict_get db' (record_id E f) = Some r /\ fingerprint r = f
                    /\ 1 <= Z.of_nat (length (locations r))) as (r & Hget & Hfp & Hloc).
  { destruct (dict_get db (record_id E f)) as [r0|] eqn:Hold.
    - destruct (registered_old E f info (ticks (os s)) db r0 Hold) as [Hget _].
      eexists. split; [exact Hget|]. cbn [fingerprint locations].
      split; [apply Hsame; reflexivity|]. rewrite length_app. cbn [length]. lia.
    - subst db'. rewrite (registered_new E f info (ticks (os s)) db Hold).
      eexists. split; [apply dict_get_app_new, Hold|].
      cbn [fingerprint locations length]. split; [reflexivity|lia]. }
  pose proof (score_self f r Hvalid Hfp) as Hscore.
  exists (sort_desc similarity (matches_in_store_order db' (PyStr f) t)),
         (match_of (PyStr f) (record_id E f, r)), r.
  split; [apply find_similar_images_eq|].
  split.
  - apply (In_found _ _ _ _ _ (find_similar_images_eq db' (PyStr f) t)).
    apply In_matches. exists (record_id E f), r.
    split; [apply dict_get_In, Hget|]. split; [reflexivity|].
    apply Qle_bool_iff. rewrite Hscore. exact Ht.
  - cbn [match_of id similarity data fst snd]. repeat split; assumption.
Qed.

Lemma add_then_find_similar_witness :
  let info := {| info_path := "/img/a.png"; info_filename := "a.png";
                 info_fingerprint := PyStr "ffff_0000_abcd";
                 info_load_time := None; info_file_size := Some 4 |} in
  exists l m,
    find_similar_images
      (fingerprint_database
         (self (snd (add_to_fingerprint_database sample_externals
                       (PyStr "ffff_0000_abcd") info sample_state))))
      (PyStr "ffff_0000_abcd") (inject_Z 95) = Ret l
    /\ In m l /\ (similarity m == 100)%Q.
Proof.
  cbv zeta.
  match goal with
  | |- context [add_to_fingerprint_database _ _ ?info _] =>
      destruct (add_then_find_similar sample_externals sample_state
                  "ffff_0000_abcd" info (inject_Z 95))
        as (l & m & r & Hfind & Hin & _ & Hsim & _)
  end.
  - reflexivity.
  - cbn. discriminate.
  - unfold Qle. simpl. lia.
  - exists l, m. split; [exact Hfind|]. split; [exact Hin | exact Hsim].
Defined.

(** * Properties of [save_image] *)

Ltac cmd_unfold2 :=
  cbv beta iota zeta delta
    [cmd_try os_makedirs_parent open_w write_text read_text os_rename
     os_path_exists os_path_getsize now_isoformat tick get_self get_os
     set_database set_files set_loaded_images raise lift lift_world
     bind ret cmd_sequencing cmd_bind cmd_ret py_sequencing py_bind
     self os files ticks disk rename_refused storage_file loaded_images
     fingerprint_database fst snd negb slice_to].

Ltac save_image_step :=
  first
    [ match goal with
      | |- context [generate_perceptual_hash ?E ?a] =>
          destruct (generate_perceptual_hash E a) as [[|?]|?] eqn:?
      end
    | rewrite add_none
    | rewrite add_eq
    | match goal with
      | |- context [save_fingerprint_database ?E (before_save ?E ?f ?info ?s0)] =>
          let b := fresh "b" in
          let me := fresh "me" in
          let Esave := fresh "Esave" in
          let Hself := fresh "Hself" in
          let Hkeep := fresh "Hkeep" in
          pose proof (save_self E (before_save E f info s0)) as Hself;
          pose proof (save_keeps_present_files E (before_save E f info s0)) as Hkeep;
          destruct (save_fingerprint_database E (before_save E f info s0))
            as [b [me [? ? ? ?]]] eqn:Esave;
          cbn [snd self os files before_save] in Hself, Hkeep
      end
    | match goal with
      | H : forall p text, ?fs !! p = Some text -> exists text', ?fs' !! p = Some text',
        H' : ?fs !! ?out = Some ?t |- context [?fs' !! ?out] =>
          let t' := fresh "t" in
          let Ht := fresh "Ht" in
          destruct (H out t H') as [t' Ht]; rewrite Ht; clear H
      end
    | match goal with
      | |- context [match ?x with _ => _ end] =>
          lazymatch x with
          | context [match _ with _ => _ end] => fail
          | _ => destruct x eqn:?
          end
      end ];
  cmd_unfold2.

(** Every way [save_image] can run. *)
Lemma save_image_cases (E : externals) (X : save_externals E) (a : ndarray E)
    (out : string) (format : option string) (q : Z) (embed : bool) (s : state) :
  exists (b : bool) (s' : state),
    save_image E X a out format q embed s = (Ret b, s')
    /\ if b
       then exists (normalized : ndarray E) (f content : string) (w1 : world),
              (if is_uint8 E a then Ret a else scale_uint8 E a) = Ret normalized
              /\ generate_perceptual_hash E normalized = Ret (PyStr f)
              /\ files w1 !! out = Some content
              /\ s' = snd (save_fingerprint_database E
                             (before_save E f (save_info_of E out content f)
                                {| self := self s; os := w1 |}))
       else self s' = self s.
Proof.
  destruct s as [[sf li db] [fs tk dk rr]].
  unfold save_image, save_image_try, save_info_of. cmd_unfold2.
  repeat save_image_step.
  all: try (exists false; eexists; split; [reflexivity|reflexivity]).
  all: exists true; eexists; (split; [reflexivity|]);
    match goal with
    | Esave : save_fingerprint_database ?E
                (before_save ?E ?f
                   {| info_path := _; info_filename := _; info_fingerprint := _;
                      info_load_time := _; info_file_size := Some (len ?c) |}
                   {| self := _; os := ?w1 |}) = _,
      Hgen : generate_perceptual_hash ?E ?n = Ret (PyStr ?f) |- _ =>
        exists n, f, c, w1; rewrite Esave;
        repeat split; try reflexivity; assumption
    end.
Qed.

(** X15.  [save_image] never raises and never changes the storage path or
    the loaded images.  It returns [True] exactly when it has registered an
    observation of the fingerprint that [generate_perceptual_hash] gives for
    the normalised buffer, at the output path, with the size of the file
    written there (the file found at the output path afterwards, unless
    that path is the storage file); when it returns [False] the database is
    what it was. *)
Theorem save_image_registers_or_leaves_store (E : externals) (X : save_externals E)
    (a : ndarray E) (out : string) (format : option string) (q : Z) (embed : bool)
    (s : state) :
  exists (b : bool) (s' : state),
    save_image E X a out format q embed s = (Ret b, s')
    /\ storage_file (self s') = storage_file (self s)
    /\ loaded_images (self s') = loaded_images (self s)
    /\ if b
       then exists (normalized : ndarray E) (f content : string) (k : nat),
              (if is_uint8 E a then Ret a else scale_uint8 E a) = Ret normalized
              /\ generate_perceptual_hash E normalized = Ret (PyStr f)
              /\ (out <> storage_file (self s) ->
                  files (os s') !! out = Some content)
              /\ fingerprint_database (self s')
                 = registered E f (save_info_of E out content f) k
                     (fingerprint_database (self s))
       else fingerprint_database (self s') = fingerprint_database (self s).
Proof.
  destruct (save_image_cases E X a out format q embed s) as (b & s' & Hrun & Hb).
  exists b, s'. split; [exact Hrun|].
  destruct b.
  - destruct Hb as (n & f & c & w1 & Hn & Hgen & Hfile & ->).
    rewrite save_self. cbn [before_save self storage_file loaded_images
      fingerprint_database os ticks].
    split; [reflexivity|]. split; [reflexivity|].
    exists n, f, c, (ticks w1).
    split; [exact Hn|]. split; [exact Hgen|]. split; [|reflexivity].
    intros Hout. rewrite save_keeps_other_files by exact Hout. exact Hfile.
  - rewrite Hb. auto.
Qed.

Lemma save_image_registers_or_leaves_store_witness :
  exists s' content k,
    save_image sample_externals sample_save_externals
      ([200; 3; 77; 9] : ndarray sample_externals) "/out/x.png" None 95 true
      sample_state = (Ret true, s')
    /\ "/out/x.png" <> storage_file (self sample_state)
    /\ files (os s') !! "/out/x.png" = Some content
    /\ fingerprint_database (self s')
       = registered sample_externals "1000_0111_0101"
           (save_info_of sample_externals "/out/x.png" content "1000_0111_0101")
           k [].
Proof.
  destruct (save_image_registers_or_leaves_store sample_externals
              sample_save_externals ([200; 3; 77; 9] : ndarray sample_externals)
              "/out/x.png" None 95 true sample_state)
    as (b & s' & Hrun & _ & _ & Hb).
  assert (b = true) as ->.
  { pose proof (f_equal fst Hrun) as H. vm_compute in H. injection H as <-.
    reflexivity. }
  destruct Hb as (n & f & c & k & Hn & Hgen & Hfile & Hdb).
  vm_compute in Hn. injection Hn as <-.
  vm_compute in Hgen. injection Hgen as <-.
  assert ("/out/x.png" <> storage_file (self sample_state)) as Hne by discriminate.
  specialize (Hfile Hne).
  exists s', c, k. split; [exact Hrun|]. split; [exact Hne|].
  split; [exact Hfile | exact Hdb].
Defined.

(** * The store of a session *)

Lemma dict_get_None_not_In {V : Type} (d : list (string * V)) (k : string) :
  dict_get d k = None -> ~ In k (dict_keys d).
Proof.
  unfold dict_keys. induction d as [|[k0 v0] d IH]; cbn [dict_get map In fst];
    [tauto|].
  destruct (String.eqb k0 k) eqn:Ek; [discriminate|].
  apply String.eqb_neq in Ek. intros Hn [Heq|Hin]; [congruence | exact (IH Hn Hin)].
Qed.

Lemma dict_update_Forall_key {V : Type} (P : string * V -> Prop) (f : V -> V)
    (k : string) (d : list (string * V)) :
  (forall v, P (k, v) -> P (k, f v)) ->
  Forall P d -> Forall P (dict_update f k d).
Proof.
  intros Hf. induction 1 as [|[k' v] d Hv Hd IH]; cbn [dict_update].
  - constructor.
  - destruct (String.eqb k' k) eqn:Ek; constructor; try assumption.
    apply String.eqb_eq in Ek. subst k'. apply Hf, Hv.
Qed.

Lemma registered_well_formed (E : externals) (f : string) (info : image_info)
    (k : nat) (db : database) :
  store_well_formed E db -> store_well_formed E (registered E f info k db).
Proof.
  intros [Hnd Hall].
  destruct (dict_get db (record_id E f)) as [r|] eqn:Hget.
  - unfold registered, dict_contains. rewrite Hget, dict_update_update. split.
    + rewrite dict_keys_update. exact Hnd.
    + apply dict_update_Forall_key; [|exact Hall].
      intros v (Hid & Hcount & Hone). unfold record_well_formed in *.
      cbn [fst snd increment_count append_location fingerprint count locations] in *.
      rewrite length_app. cbn [length]. repeat split; [exact Hid | lia | lia].
  - rewrite (registered_new E f info k db Hget). split.
    + unfold dict_keys. rewrite map_app. cbn [map fst].
      apply (Permutation_NoDup (Permutation_cons_append (map fst db) (record_id E f))).
      constructor; [apply dict_get_None_not_In, Hget | exact Hnd].
    + apply Forall_app. split; [exact Hall|].
      constructor; [|constructor]. repeat split; cbn; lia.
Qed.

(** X16.  Through a whole session (images ingested and saved, observations
    registered, the database persisted or cleared, the environment changing
    in between) the store stays well formed: its keys are distinct, each
    key is the ID of the fingerprint of its record, and each record's count
    is the number of its locations and at least 1. *)
Theorem session_store_well_formed (E : externals) (X : save_externals E) (s : state) :
  session E X s -> store_well_formed E (fingerprint_database (self s)).
Proof.
  induction 1 as [sf li w | s w _ IH | s path _ IH | s a out fmt q emb _ IH
                  | s fp info _ IH | s _ IH | s _ IH].
  - split; constructor.
  - exact IH.
  - rewrite load_image_from_path_eq.
    destruct (load_image_locals_cases E path s)
      as [(Hf & ->)|[(c & Hf & Hfmt & ->)|[(c & e & Hf & Hfmt & Hdec & ->)
         |[(c & arr & Hf & Hfmt & Hdec & Hgen & ->)
          |(c & arr & f & Hf & Hfmt & Hdec & Hgen & ->)]]]]; try exact IH.
    cbn [snd]. rewrite save_self. cbn [before_save self fingerprint_database].
    apply registered_well_formed. exact IH.
  - destruct (save_image_cases E X a out fmt q emb s) as (b & s' & -> & Hb).
    cbn [snd]. destruct b.
    + destruct Hb as (n & f & c & w1 & _ & _ & _ & ->).
      rewrite save_self. cbn [before_save self fingerprint_database].
      apply registered_well_formed. exact IH.
    + rewrite Hb. exact IH.
  - destruct fp as [|f]; [rewrite add_none; exact IH|].
    rewrite add_eq. cbn [snd]. rewrite save_self.
    cbn [before_save self fingerprint_database].
    apply registered_well_formed. exact IH.
  - rewrite save_self. exact IH.
  - change (clear_database E s)
      with (save_fingerprint_database E
              {| self := {| storage_file := storage_file (self s);
                            loaded_images := loaded_images (self s);
                            fingerprint_database := [] |};
                 os := os s |}).
    rewrite save_self. split; constructor.
Qed.

Lemma session_store_well_formed_witness :
  let s := snd (save_image sample_externals sample_save_externals
                  ([200; 3; 77; 9] : ndarray sample_externals) "/out/x.png" None 95 true
                  (snd (load_image_from_path sample_externals "/img/a.png"
                          sample_state))) in
  session sample_externals sample_save_externals s
  /\ store_well_formed sample_externals (fingerprint_database (self s)).
Proof.
  cbv zeta.
  assert (session sample_externals sample_save_externals sample_state) as H0
    by apply session_start.
  pose proof (session_save_image _ _ _ ([200; 3; 77; 9] : ndarray sample_externals)
                "/out/x.png" None 95 true
                (session_ingest _ _ _ "/img/a.png" H0)) as H2.
  split; [exact H2|].
  exact (session_store_well_formed _ _ _ H2).
Defined.

(** * The ingest, as the method returns it *)

(** What [load_image_from_path] returns depends on the environment only,
    not on the processor. *)
Lemma ingest_result_of_environment (E : externals) (path : string) (s1 s2 : state) :
  os s1 = os s2 ->
  fst (load_image_from_path E path s1) = fst (load_image_from_path E path s2).
Proof.
  intros Hos. rewrite !load_image_from_path_eq.
  pose proof (load_image_locals_cases E path s1) as C1.
  pose proof (load_image_locals_cases E path s2) as C2.
  cbv zeta in C1, C2. rewrite Hos in C1.
  destruct C1 as [(Hf1 & ->)|[(c1 & Hf1 & Hfmt1 & ->)
      |[(c1 & e1 & Hf1 & Hfmt1 & Hdec1 & ->)
       |[(c1 & a1 & Hf1 & Hfmt1 & Hdec1 & Hgen1 & ->)
        |(c1 & a1 & f1 & Hf1 & Hfmt1 & Hdec1 & Hgen1 & ->)]]]];
  destruct C2 as [(Hf2 & ->)|[(c2 & Hf2 & Hfmt2 & ->)
      |[(c2 & e2 & Hf2 & Hfmt2 & Hdec2 & ->)
       |[(c2 & a2 & Hf2 & Hfmt2 & Hdec2 & Hgen2 & ->)
        |(c2 & a2 & f2 & Hf2 & Hfmt2 & Hdec2 & Hgen2 & ->)]]]];
  cbn [fst image_hash image_info_of]; try reflexivity; try congruence;
    assert (c1 = c2) as -> by congruence;
    rewrite Hdec1 in Hdec2; try discriminate Hdec2;
    injection Hdec2 as <-; try reflexivity;
    rewrite Hgen1 in Hgen2; discriminate Hgen2.
Qed.

(** C2 (as amended).  A successful ingest computes its match list (the
    local [similar_images], which the method prints and does not return)
    by querying the store as it stood before the ingest: every match is a
    record the store already held, so when the ingest creates the record of
    its fingerprint, that record (count 1, one location) is not among its
    own matches.  When the same fingerprint is ingested again, that match
    list holds the record created by the first ingest with similarity 100,
    and that record, which had count 1 and one location, has count 2 and
    two locations afterwards.  The method itself returns the image hash and
    the image info only, and what it returns does not depend on the
    store. *)
Theorem ingest_queries_before_recording (E : externals) :
  (forall (path : string) (s : state) (L : ingest_locals) (s' : state),
      load_image_locals E path s = (Ret L, s') ->
      exists f,
        info_fingerprint (image_info_of L) = PyStr f
        /\ find_similar_images (fingerprint_database (self s)) (PyStr f) (inject_Z 90)
           = Ret (similar_images L)
        /\ (forall m, In m (similar_images L) ->
                      dict_contains (fingerprint_database (self s)) (id m) = true)
        /\ (dict_contains (fingerprint_database (self s)) (record_id E f) = false ->
            ~ In (record_id E f) (map id (similar_images L))
            /\ exists r,
                 dict_get (fingerprint_database (self s')) (record_id E f) = Some r
                 /\ fingerprint r = f /\ count r = 1
                 /\ length (locations r) = 1%nat))
  /\ (forall (p1 p2 : string) (s0 s1 s1' s2 : state) (L1 L2 : ingest_locals)
             (f : string),
        load_image_locals E p1 s0 = (Ret L1, s1) ->
        self s1' = self s1 ->
        load_image_locals E p2 s1' = (Ret L2, s2) ->
        info_fingerprint (image_info_of L1) = PyStr f ->
        info_fingerprint (image_info_of L2) = PyStr f ->
        valid_fingerprint f = true ->
        dict_contains (fingerprint_database (self s0)) (record_id E f) = false ->
        exists m r1 r2,
          In m (similar_images L2)
          /\ id m = record_id E f
          /\ (similarity m == 100)%Q
          /\ deref (fingerprint_database (self s1)) (data m) = Some r1
          /\ count r1 = 1 /\ length (locations r1) = 1%nat
          /\ deref (fingerprint_database (self s2)) (data m) = Some r2
          /\ count r2 = 2 /\ length (locations r2) = 2%nat)
  /\ (forall (path : string) (s : state),
        load_image_from_path E path s
        = match load_image_locals E path s with
          | (Ret L, s') => (Ret (image_hash L, image_info_of L), s')
          | (Raise e, s') => (Raise e, s')
          end)
  /\ (forall (path : string) (s1 s2 : state),
        os s1 = os s2 ->
        fst (load_image_from_path E path s1) = fst (load_image_from_path E path s2)).
Proof.
  split; [|split; [|split]].
  - intros path s L s' Hrun.
    destruct (load_image_locals_inv E path s L s' Hrun) as (f & Hfp & Hfind & Hdb).
    exists f. split; [exact Hfp|]. split; [exact Hfind|].
    assert (forall m, In m (similar_images L) ->
              dict_contains (fingerprint_database (self s)) (id m) = true) as Hold.
    { intros m Hm. apply (In_found _ _ _ _ m Hfind) in Hm.
      apply In_matches in Hm as (k & r & Hin & -> & _).
      cbn [match_of id fst]. eapply In_dict_contains, Hin. }
    split; [exact Hold|].
    intros Hnew. split.
    + intros Hin. apply in_map_iff in Hin as (m & Hid & Hm).
      apply Hold in Hm. rewrite Hid in Hm. congruence.
    + rewrite Hdb, registered_new by (apply dict_contains_false, Hnew).
      eexists. split; [apply dict_get_app_new, dict_contains_false, Hnew|].
      repeat split.
  - intros p1 p2 s0 s1 s1' s2 L1 L2 f Hrun1 Hsame Hrun2 Hf1 Hf2 Hvalid Hnew.
    destruct (load_image_locals_inv E p1 s0 L1 s1 Hrun1) as (f1 & Hfp1 & _ & Hdb1).
    destruct (load_image_locals_inv E p2 s1' L2 s2 Hrun2) as (f2 & Hfp2 & Hfind2 & Hdb2).
    assert (f1 = f) as -> by congruence. assert (f2 = f) as -> by congruence.
    apply dict_contains_false in Hnew.
    rewrite registered_new in Hdb1 by exact Hnew.
    rewrite Hsame in Hfind2, Hdb2.
    set (r1 := {| fingerprint := f;
                  original_filename := info_filename (image_info_of L1);
                  first_seen := isoformat_now E (S (ticks (os s0)));
                  locations := [location_of (image_info_of L1)
                                  (isoformat_now E (S (S (ticks (os s0)))))];
                  count := 1 |}) in *.
    assert (dict_get (fingerprint_database (self s1)) (record_id E f) = Some r1)
      as Hget1 by (rewrite Hdb1; apply dict_get_app_new, Hnew).
    destruct (registered_old E f (image_info_of L2) (S (ticks (os s1')))
                (fingerprint_database (self s1)) r1 Hget1) as [Hget2 _].
    rewrite <- Hdb2 in Hget2.
    pose proof (score_self f r1 Hvalid eq_refl) as Hscore.
    exists (match_of (PyStr f) (record_id E f, r1)), r1. eexists.
    split; [|split; [reflexivity|]; split; [exact Hscore|];
             split; [exact Hget1|]; split; [reflexivity|]; split; [reflexivity|];
             split; [exact Hget2|]; split; reflexivity].
    apply (In_found _ _ _ _ _ Hfind2). apply In_matches.
    exists (record_id E f), r1. split; [|split; [reflexivity|]].
    + rewrite Hdb1. apply in_or_app. right. left. reflexivity.
    + apply Qle_bool_iff. rewrite Hscore. unfold Qle. simpl. lia.
  - intros path s. apply load_image_from_path_eq.
  - intros path s1 s2. apply ingest_result_of_environment.
Qed.

Lemma ingest_queries_before_recording_witness :
  let first := load_image_locals sample_externals "/img/a.png" sample_state in
  let second := load_image_locals sample_externals "/img/a.png" (snd first) in
  exists L1 L2 m r1 r2,
    fst first = Ret L1 /\ fst second = Ret L2
    /\ similar_images L1 = []
    /\ In m (similar_images L2)
    /\ id m = record_id sample_externals "0000_1011_0011"
    /\ (similarity m == 100)%Q
    /\ deref (fingerprint_database (self (snd first))) (data m) = Some r1
    /\ count r1 = 1 /\ length (locations r1) = 1%nat
    /\ deref (fingerprint_database (self (snd second))) (data m) = Some r2
    /\ count r2 = 2 /\ length (locations r2) = 2%nat.
Proof.
  cbv zeta.
  set (first := load_image_locals sample_externals "/img/a.png" sample_state).
  set (second := load_image_locals sample_externals "/img/a.png" (snd first)).
  assert (exists L1, fst first = Ret L1 /\ similar_images L1 = []
                     /\ info_fingerprint (image_info_of L1) = PyStr "0000_1011_0011")
    as (L1 & H1 & Hempty & Hf1).
  { eexists. split; [vm_compute; reflexivity|]. split; reflexivity. }
  assert (exists L2, fst second = Ret L2
                     /\ info_fingerprint (image_info_of L2) = PyStr "0000_1011_0011")
    as (L2 & H2 & Hf2).
  { eexists. split; [vm_compute; reflexivity|]. reflexivity. }
  destruct (proj1 (proj2 (ingest_queries_before_recording sample_externals))
              "/img/a.png" "/img/a.png" sample_state (snd first) (snd first)
              (snd second) L1 L2 "0000_1011_0011")
    as (m & r1 & r2 & Hm).
  - rewrite <- H1. apply surjective_pairing.
  - reflexivity.
  - rewrite <- H2. apply surjective_pairing.
  - exact Hf1.
  - exact Hf2.
  - reflexivity.
  - reflexivity.
  - exists L1, L2, m, r1, r2. split; [exact H1|]. split; [exact H2|].
    split; [exact Hempty|]. exact Hm.
Defined.

(** C2 (as stated) fails: the second ingest of the same content returns the
    image hash and the image info and nothing else; it returns exactly what
    an ingest into an empty store returns, although the store holds the
    record of the first ingest, which the ingest found as a match. *)
Lemma ingest_returns_no_match_list :
  let first := load_image_locals sample_externals "/img/a.png" sample_state in
  let second := load_image_locals sample_externals "/img/a.png" (snd first) in
  let empty := {| self := self sample_state; os := os (snd first) |} in
  dict_keys (fingerprint_database (self (snd first))) = ["0000_1011_0011"]
  /\ (exists L m, fst second = Ret L /\ similar_images L = [m]
                  /\ id m = "0000_1011_0011")
  /\ fst (load_image_from_path sample_externals "/img/a.png" (snd first))
     = Ret ("aXc!",
            {| info_path := "/img/a.png"; info_filename := "a.png";
               info_fingerprint := PyStr "0000_1011_0011";
               info_load_time := Some "2024-01-01T00:00:03";
               info_file_size := Some 4 |})
  /\ fst (load_image_from_path sample_externals "/img/a.png" (snd first))
     = fst (load_image_from_path sample_externals "/img/a.png" empty).
Proof.
  cbv zeta. split; [vm_compute; reflexivity|]. split.
  - eexists. eexists. split; [vm_compute; reflexivity|]. split; reflexivity.
  - split; vm_compute; reflexivity.
Qed.
